(** * Capacity Scout: the measurement-and-recording engine

    A shallow embedding of [CapacityScout_Qt.py]: the SQLite-backed
    [Database] (locations, daily statistics, the dirty flag and the batched
    commit), the [LocationSize] probe, and the parts of [MonitorWindow] that
    record daily statistics and slice a series by period.

    Python integers are unbounded and are modelled by [Z]; byte counts that
    the operating system reports are never negative and are modelled by [N].
    Python [str] values are modelled by [string] (their UTF-8 bytes), which is
    also the order SQLite's default BINARY collation compares TEXT by.  An
    exception that the source handles or lets escape is an explicit [Raised]
    outcome. *)

From Stdlib Require Import ZArith NArith List String Ascii Bool Lia.
From Stdlib Require Import Sorted Permutation OrderedTypeEx.
Import ListNotations.
Local Open Scope string_scope.
Local Open Scope list_scope.
Local Open Scope Z_scope.

(** ** Outcomes of calls that may raise *)

Inductive exn : Type :=
  | OSError
  | ValueError
  | OverflowError
  | KeyError.

Inductive result (A : Type) : Type :=
  | Returned (a : A)
  | Raised (e : exn).

Arguments Returned {A} a.
Arguments Raised {A} e.

Definition bind {A B : Type} (r : result A) (k : A -> result B) : result B :=
  match r with
  | Returned a => k a
  | Raised e => Raised e
  end.

Notation "x <- r ;; k" := (bind r (fun x => k))
  (at level 61, r at next level, right associativity).

(** ** [datetime.date]

    The calendar arithmetic of Python's [datetime] module, which
    [update_today_stats] and [filtered_stats] rely on: proleptic Gregorian
    dates between 0001-01-01 and 9999-12-31, their ordinals, [timedelta]
    arithmetic in whole days, [weekday], [isoformat] and
    [strptime(..., "%Y-%m-%d")]. *)

Module PyDate.

Record date : Type := mkdate { year : Z; month : Z; day : Z }.

Definition MINYEAR : Z := 1.
Definition MAXYEAR : Z := 9999.
Definition MAXORDINAL : Z := 3652059.

Definition is_leap (y : Z) : bool :=
  (y mod 4 =? 0) && (negb (y mod 100 =? 0) || (y mod 400 =? 0)).

Definition DAYS_IN_MONTH (m : Z) : Z :=
  match m with
  | 1 => 31 | 2 => 28 | 3 => 31 | 4 => 30 | 5 => 31 | 6 => 30
  | 7 => 31 | 8 => 31 | 9 => 30 | 10 => 31 | 11 => 30 | 12 => 31
  | _ => -1
  end.

Definition DAYS_BEFORE_MONTH (m : Z) : Z :=
  match m with
  | 1 => 0 | 2 => 31 | 3 => 59 | 4 => 90 | 5 => 120 | 6 => 151
  | 7 => 181 | 8 => 212 | 9 => 243 | 10 => 273 | 11 => 304 | 12 => 334
  | _ => -1
  end.

Definition days_before_year (y : Z) : Z :=
  let y' := y - 1 in
  y' * 365 + y' / 4 - y' / 100 + y' / 400.

Definition days_in_month (y m : Z) : Z :=
  if (m =? 2) && is_leap y then 29 else DAYS_IN_MONTH m.

Definition days_before_month (y m : Z) : Z :=
  DAYS_BEFORE_MONTH m + (if (2 <? m) && is_leap y then 1 else 0).

Definition ymd2ord (y m d : Z) : Z :=
  days_before_year y + days_before_month y m + d.

Definition DI400Y : Z := 146097.
Definition DI100Y : Z := 36524.
Definition DI4Y : Z := 1461.

Definition ord2ymd (n : Z) : date :=
  let n := n - 1 in
  let n400 := n / DI400Y in
  let n := n mod DI400Y in
  let y := n400 * 400 + 1 in
  let n100 := n / DI100Y in
  let n := n mod DI100Y in
  let n4 := n / DI4Y in
  let n := n mod DI4Y in
  let n1 := n / 365 in
  let n := n mod 365 in
  let y := y + (n100 * 100 + n4 * 4 + n1) in
  if (n1 =? 4) || (n100 =? 4) then mkdate (y - 1) 12 31
  else
    let leapyear := (n1 =? 3) && (negb (n4 =? 24) || (n100 =? 3)) in
    let m := Z.shiftr (n + 50) 5 in
    let preceding :=
      DAYS_BEFORE_MONTH m + (if (2 <? m) && leapyear then 1 else 0) in
    if n <? preceding then
      let m := m - 1 in
      let preceding :=
        preceding - (DAYS_IN_MONTH m + (if (m =? 2) && leapyear then 1 else 0)) in
      mkdate y m (n - preceding + 1)
    else mkdate y m (n - preceding + 1).

(** The fields a [date] object can hold ([_check_date_fields]). *)
Definition valid_fields (y m d : Z) : bool :=
  (MINYEAR <=? y) && (y <=? MAXYEAR) &&
  (1 <=? m) && (m <=? 12) &&
  (1 <=? d) && (d <=? days_in_month y m).

Definition valid (d : date) : bool := valid_fields (year d) (month d) (day d).

(** [date(y, m, d)]: [ValueError] when a field is out of range. *)
Definition new (y m d : Z) : result date :=
  if valid_fields y m d then Returned (mkdate y m d) else Raised ValueError.

Definition toordinal (d : date) : Z := ymd2ord (year d) (month d) (day d).

Definition fromordinal (n : Z) : date := ord2ymd n.

(** [d + timedelta(days=k)]. *)
Definition add_days (d : date) (k : Z) : result date :=
  let o := toordinal d + k in
  if (0 <? o) && (o <=? MAXORDINAL) then Returned (fromordinal o)
  else Raised OverflowError.

(** [d - timedelta(days=k)], which Python computes as
    [d + timedelta(days=-k)]. *)
Definition sub_days (d : date) (k : Z) : result date := add_days d (- k).

(** Monday is 0, Sunday is 6. *)
Definition weekday (d : date) : Z := (toordinal d + 6) mod 7.

(** Dates compare as the tuples [(year, month, day)]. *)
Definition compare (a b : date) : comparison :=
  match year a ?= year b with
  | Eq => match month a ?= month b with
          | Eq => day a ?= day b
          | c => c
          end
  | c => c
  end.

Definition leb (a b : date) : bool :=
  match compare a b with Gt => false | _ => true end.

Definition ltb (a b : date) : bool :=
  match compare a b with Lt => true | _ => false end.

(** *** Text form *)

Definition digit (k : Z) : ascii := ascii_of_N (48 + Z.to_N k).

(** ["%02d" % k] for [0 <= k < 100]. *)
Definition fmt02 (k : Z) : string :=
  String (digit (k / 10)) (String (digit (k mod 10)) EmptyString).

(** ["%04d" % k] for [0 <= k < 10000]. *)
Definition fmt04 (k : Z) : string :=
  String (digit (k / 1000))
    (String (digit (k / 100 mod 10))
       (String (digit (k / 10 mod 10))
          (String (digit (k mod 10)) EmptyString))).

(** [d.isoformat()], that is ["%04d-%02d-%02d" % (year, month, day)]; the
    fields of a [date] always fit the widths. *)
Definition isoformat (d : date) : string :=
  (fmt04 (year d) ++ "-" ++ fmt02 (month d) ++ "-" ++ fmt02 (day d))%string.

Definition digit_value (c : ascii) : option Z :=
  let n := N_of_ascii c in
  if ((48 <=? n) && (n <=? 57))%N then Some (Z.of_N n - 48) else None.

(** The directive [%m] of [strptime]: the regular expression
    [1[0-2]|0[1-9]|[1-9]], tried on the text up to the next hyphen. *)
Definition parse_month (s : string) : option Z :=
  match s with
  | String a EmptyString =>
      match digit_value a with
      | Some x => if 1 <=? x then Some x else None
      | None => None
      end
  | String a (String b EmptyString) =>
      match digit_value a, digit_value b with
      | Some 1, Some y => if y <=? 2 then Some (10 + y) else None
      | Some 0, Some y => if 1 <=? y then Some y else None
      | _, _ => None
      end
  | _ => None
  end.

(** The directive [%d]: [3[0-1]|[1-2]\d|0[1-9]|[1-9]| [1-9]], which has to
    reach the end of the text. *)
Definition parse_day (s : string) : option Z :=
  match s with
  | String a EmptyString =>
      match digit_value a with
      | Some x => if 1 <=? x then Some x else None
      | None => None
      end
  | String a (String b EmptyString) =>
      match digit_value b with
      | None => None
      | Some y =>
          if Ascii.eqb a " " then (if 1 <=? y then Some y else None)
          else
            match digit_value a with
            | Some 3 => if y <=? 1 then Some (30 + y) else None
            | Some 1 => Some (10 + y)
            | Some 2 => Some (20 + y)
            | Some 0 => if 1 <=? y then Some y else None
            | _ => None
            end
      end
  | _ => None
  end.

(** Splits a text at its first hyphen. *)
Fixpoint split_hyphen (s : string) : option (string * string) :=
  match s with
  | EmptyString => None
  | String c rest =>
      if Ascii.eqb c "-" then Some (EmptyString, rest)
      else match split_hyphen rest with
           | Some (a, b) => Some (String c a, b)
           | None => None
           end
  end.

(** [datetime.strptime(s, "%Y-%m-%d").date()] on ASCII text: four digits
    of year, a hyphen, a month, a hyphen and a day, then the range check
    of the [date] constructor.  Anything else is a [ValueError]. *)
Definition strptime (s : string) : result date :=
  match s with
  | String y3 (String y2 (String y1 (String y0 (String h rest)))) =>
      match digit_value y3, digit_value y2, digit_value y1, digit_value y0 with
      | Some a, Some b, Some c, Some e =>
          if Ascii.eqb h "-" then
            match split_hyphen rest with
            | Some (ms, ds) =>
                match parse_month ms, parse_day ds with
                | Some m, Some d => new (a * 1000 + b * 100 + c * 10 + e) m d
                | _, _ => Raised ValueError
                end
            | None => Raised ValueError
            end
          else Raised ValueError
      | _, _, _, _ => Raised ValueError
      end
  | _ => Raised ValueError
  end.

End PyDate.

(** ** [class ConfigManager]

    [self.data] is a dictionary from setting names to values; it iterates
    in insertion order.  Nothing here depends on what the values are. *)

Module ConfigManager.
Section Data.
Context {V : Type}.

(** [data[key] = value]. *)
Fixpoint set (data : list (string * V)) (key : string) (value : V) : list (string * V) :=
  match data with
  | [] => [(key, value)]
  | (k, v) :: rest =>
      if String.eqb k key then (k, value) :: rest else (k, v) :: set rest key value
  end.

(** [data.get(key)]. *)
Fixpoint get (data : list (string * V)) (key : string) : option V :=
  match data with
  | [] => None
  | (k, v) :: rest => if String.eqb k key then Some v else get rest key
  end.

(** [data.update(other)]. *)
Definition update (data other : list (string * V)) : list (string * V) :=
  fold_left (fun d kv => set d (fst kv) (snd kv)) other data.

(** [load]: [file] is the object the configuration file holds, [None] when
    the file does not exist. *)
Definition load (data : list (string * V)) (file : option (list (string * V)))
  : list (string * V) :=
  match file with
  | Some other => update data other
  | None => data
  end.

End Data.
End ConfigManager.

(** ** [class Database]

    The two tables are lists of rows in rowid order.  A connection sees its
    own uncommitted changes ([conn]); [disk] is what the last
    [conn.commit()] made durable.

    The methods are modelled on the values SQLite can bind: integers of the
    signed 64-bit range and texts UTF-8 can encode.  Outside them
    [cursor.execute] raises before the statement runs; [int64] and
    [remove_location_call] below give that outcome where a property is
    about the error a call signals. *)

Module Database.

(** A row of [locations]. *)
Record location_row : Type := mklocation
  { id : Z; name : string; path : string; kind : string }.

(** A row of [daily_stats]. *)
Record stat_row : Type := mkstat
  { stat_id : Z;
    location_id : Z;
    day : string;
    capacity_bytes : Z;
    delta_bytes : Z }.

(** Both tables, each with the counter that [AUTOINCREMENT] keeps in
    [sqlite_sequence]. *)
Record tables : Type := mktables
  { locations : list location_row;
    locations_seq : Z;
    daily_stats : list stat_row;
    daily_stats_seq : Z }.

Record t : Type := mkdb
  { conn : tables;
    disk : tables;
    commits : nat;
    dirty : bool }.

Definition empty : tables := mktables [] 0 [] 0.

(** [self.conn.commit()]. *)
Definition commit (db : t) : t :=
  mkdb (conn db) (conn db) (S (commits db)) (dirty db).

(** [init_schema]: the [CREATE TABLE IF NOT EXISTS] statements leave
    existing tables alone; the method ends with a commit. *)
Definition init_schema (db : t) : t := commit db.

(** [__init__] on a database file holding [file]. *)
Definition init (file : tables) : t :=
  init_schema (mkdb file file 0 false).

(** The rowid an [AUTOINCREMENT] table gives its next row: one more than
    the largest rowid the table has ever held. *)
Definition next_rowid (seq : Z) (ids : list Z) : Z :=
  fold_right Z.max seq ids + 1.

Definition with_conn (db : t) (c : tables) (d : bool) : t :=
  mkdb c (disk db) (commits db) d.

(** [add_location]: returns [cursor.lastrowid]. *)
Definition add_location (db : t) (name path kind : string) : Z * t :=
  let c := conn db in
  let rowid := next_rowid (locations_seq c) (map id (locations c)) in
  (rowid,
   with_conn db
     (mktables (locations c ++ [mklocation rowid name path kind]) rowid
               (daily_stats c) (daily_stats_seq c))
     true).

Definition remove_location (db : t) (location_id' : Z) : t :=
  let c := conn db in
  let stats := filter (fun r => negb (location_id r =? location_id')) (daily_stats c) in
  let locs := filter (fun l => negb (id l =? location_id')) (locations c) in
  with_conn db (mktables locs (locations_seq c) stats (daily_stats_seq c)) true.

(** [ORDER BY day DESC LIMIT 1] over the rows [rows]: a row with the
    greatest [day]; [UNIQUE(location_id, day)] leaves no ties within one
    location. *)
Fixpoint latest (rows : list stat_row) : option stat_row :=
  match rows with
  | [] => None
  | r :: rest =>
      match latest rest with
      | Some r' => if String.ltb (day r) (day r') then Some r' else Some r
      | None => Some r
      end
  end.

Definition last_stat_for_location (db : t) (location_id' : Z) : option stat_row :=
  latest (filter (fun r => location_id r =? location_id') (daily_stats (conn db))).

(** [fetchone] on the rows that match. *)
Definition stat_for_day (db : t) (location_id' : Z) (day' : string) : option stat_row :=
  hd_error
    (filter (fun r => (location_id r =? location_id') && String.eqb (day r) day')
            (daily_stats (conn db))).

Definition last_stat_before_day (db : t) (location_id' : Z) (day' : string)
  : option stat_row :=
  latest
    (filter (fun r => (location_id r =? location_id') && String.ltb (day r) day')
            (daily_stats (conn db))).

(** [INSERT OR REPLACE]: the rows that would break
    [UNIQUE(location_id, day)] are deleted, then the new row is inserted
    under a new rowid.  SQLite does not enforce the [FOREIGN KEY] clause
    unless [PRAGMA foreign_keys] is switched on, which the program never
    does. *)
Definition insert_daily_stat (db : t) (location_id' : Z) (day' : string)
    (capacity_bytes' delta_bytes' : Z) : t :=
  let c := conn db in
  let kept :=
    filter (fun r => negb ((location_id r =? location_id') && String.eqb (day r) day'))
           (daily_stats c) in
  let rowid := next_rowid (daily_stats_seq c) (map stat_id (daily_stats c)) in
  with_conn db
    (mktables (locations c) (locations_seq c)
              (kept ++ [mkstat rowid location_id' day' capacity_bytes' delta_bytes'])
              rowid)
    true.

(** [ORDER BY day]: a stable insertion sort on the day text. *)
Fixpoint insert_by_day (r : stat_row) (sorted : list stat_row) : list stat_row :=
  match sorted with
  | [] => [r]
  | s :: rest =>
      if String.ltb (day s) (day r) then s :: insert_by_day r rest
      else r :: s :: rest
  end.

Definition order_by_day (rows : list stat_row) : list stat_row :=
  fold_right insert_by_day [] rows.

Definition stats_for_location (db : t) (location_id' : Z) : list stat_row :=
  order_by_day (filter (fun r => location_id r =? location_id') (daily_stats (conn db))).

Definition commit_if_dirty (db : t) : t :=
  if dirty db then
    let db' := commit db in
    mkdb (conn db') (disk db') (commits db') false
  else db.

(** [ORDER BY name]: a stable insertion sort on the name. *)
Fixpoint insert_by_name (l : location_row) (sorted : list location_row)
  : list location_row :=
  match sorted with
  | [] => [l]
  | s :: rest =>
      if String.ltb (name s) (name l) then s :: insert_by_name l rest
      else l :: s :: rest
  end.

Definition order_by_name (rows : list location_row) : list location_row :=
  fold_right insert_by_name [] rows.

(** [list_locations]: one [Location] per row, with the row's four fields. *)
Definition list_locations (db : t) : list location_row :=
  order_by_name (locations (conn db)).



End Database.

(** ** The file system as the probe observes it

    A directory tree records what each call of the walk answers: a
    directory's [listing] is the outcome of [os.scandir] on it ([None] when
    it raises [OSError]: the directory is gone or may not be read), and a
    file's [st_size] is the outcome of [os.path.getsize] on its path ([None]
    when it raises [OSError]: the file vanished after it was listed, is a
    dangling link, or may not be examined).  Paths are texts the file system
    can be asked about; for a path with a NUL character these calls raise
    [ValueError] instead, which is outside this model. *)

#[warnings="-register-all"]
Inductive node : Type :=
  | File (st_size : option N)
  | Directory (is_link : bool) (listing : option (list (string * node))).

Record filesystem : Type := mkfs
  { (** what a path names, [None] when it names nothing reachable *)
    lookup : string -> option node;
    (** [shutil.disk_usage(path).used], [None] when the call raises [OSError] *)
    statvfs_used : string -> option N }.

Module LocationSize.

Definition disk_usage (fs : filesystem) (path : string) : result Z :=
  match statvfs_used fs path with
  | Some used => Returned (Z.of_N used)
  | None => Raised OSError
  end.

(** [os.path.join(root, name)] on POSIX paths. *)
Definition join (root name : string) : string :=
  match name with
  | String "/" _ => name
  | _ =>
      if (String.eqb root "" || String.eqb (substring (String.length root - 1) 1 root) "/")%bool
      then (root ++ name)%string
      else (root ++ "/" ++ name)%string
  end.

Definition is_dir (n : node) : bool :=
  match n with Directory _ _ => true | File _ => false end.

(** One item of [os.walk]: the directory, the names of its
    sub-directories, and its other entries, each with the answer
    [os.path.getsize] gives for it. *)
Definition walk_item : Type :=
  (string * list string * list (string * option N))%type.

Definition dirnames (entries : list (string * node)) : list string :=
  map fst (filter (fun e => is_dir (snd e)) entries).

Fixpoint nondirs (entries : list (string * node)) : list (string * option N) :=
  match entries with
  | [] => []
  | (name, File size) :: rest => (name, size) :: nondirs rest
  | (_, Directory _ _) :: rest => nondirs rest
  end.

(** [os.walk(top)] with its defaults: top-down, errors of [os.scandir]
    ignored ([onerror=None]), links to directories listed but not entered
    ([followlinks=False]). *)
Fixpoint walk (top : string) (n : node) {struct n} : list walk_item :=
  match n with
  | File _ => []
  | Directory _ None => []
  | Directory _ (Some entries) =>
      (top, dirnames entries, nondirs entries) ::
      flat_map (fun entry : string * node =>
                  let (name, e) := entry in
                  match e with
                  | Directory false _ => walk (join top name) e
                  | _ => []
                  end) entries
  end.

Definition os_walk (fs : filesystem) (path : string) : list walk_item :=
  match lookup fs path with
  | Some n => walk path n
  | None => []
  end.

Definition getsize (size : option N) : result Z :=
  match size with
  | Some s => Returned (Z.of_N s)
  | None => Raised OSError
  end.

(** The inner loop of [folder_size]: [try: total += getsize(...)] with
    [except OSError: continue]. *)
Fixpoint add_files (files : list (string * option N)) (total : Z) : result Z :=
  match files with
  | [] => Returned total
  | (_, size) :: rest =>
      match getsize size with
      | Returned s => add_files rest (total + s)
      | Raised OSError => add_files rest total
      | Raised e => Raised e
      end
  end.

Fixpoint add_items (items : list walk_item) (total : Z) : result Z :=
  match items with
  | [] => Returned total
  | (_, _, files) :: rest =>
      total' <- add_files files total ;;
      add_items rest total'
  end.

Definition folder_size (fs : filesystem) (path : string) : result Z :=
  add_items (os_walk fs path) 0.

Definition compute (fs : filesystem) (path kind : string) : result Z :=
  if String.eqb kind "Disk" then disk_usage fs path
  else folder_size fs path.

End LocationSize.

(** ** [class MonitorWindow]

    The window owns the database and the dictionary [self.locations], which
    iterates in insertion order.  Widgets, the chart and the timers belong to
    the presentation; a handler takes what it reads from them (the dialog's
    answer, the selected entry, today's date, the state of the file system)
    as arguments. *)

Module MonitorWindow.

Record Location : Type := mkLocation
  { location_id : Z; name : string; path : string; kind : string }.

Record t : Type := mkwindow
  { db : Database.t;
    locations : list (Z * Location) }.

(** [self.locations[key] = value]. *)
Fixpoint dict_set (d : list (Z * Location)) (key : Z) (value : Location)
  : list (Z * Location) :=
  match d with
  | [] => [(key, value)]
  | (k, v) :: rest =>
      if k =? key then (k, value) :: rest else (k, v) :: dict_set rest key value
  end.

(** [self.locations.pop(key, None)]. *)
Definition dict_pop (d : list (Z * Location)) (key : Z) : list (Z * Location) :=
  filter (fun kv => negb (fst kv =? key)) d.

Fixpoint dict_get (d : list (Z * Location)) (key : Z) : option Location :=
  match d with
  | [] => None
  | (k, v) :: rest => if k =? key then Some v else dict_get rest key
  end.

(** The last four statements of the loop body of [update_today_stats]:
    the baseline is read, the delta computed and today's row written. *)
Definition record_reading (d : Database.t) (location_id' : Z) (today : string)
    (size_bytes : Z) : Database.t :=
  let previous := Database.last_stat_before_day d location_id' today in
  let delta :=
    match previous with
    | Some row => size_bytes - Database.capacity_bytes row
    | None => 0
    end in
  Database.insert_daily_stat d location_id' today size_bytes delta.

(** The loop of [update_today_stats] over [self.locations.values()]; an
    exception other than [OSError] would leave the handler.  The call of
    [refresh_chart] that ends the method redraws the chart from the store
    and changes nothing in it. *)
Fixpoint update_each (fs : filesystem) (today : string) (force_update : bool)
    (values : list Location) (d : Database.t) : result Database.t :=
  match values with
  | [] => Returned d
  | location :: rest =>
      let existing := Database.stat_for_day d (location_id location) today in
      if (match existing with Some _ => true | None => false end) && negb force_update
      then update_each fs today force_update rest d
      else
        match LocationSize.compute fs (path location) (kind location) with
        | Raised OSError => update_each fs today force_update rest d
        | Raised e => Raised e
        | Returned size_bytes =>
            update_each fs today force_update rest
              (record_reading d (location_id location) today size_bytes)
        end
  end.

Definition update_today_stats (fs : filesystem) (today : PyDate.date)
    (force_update : bool) (w : t) : result t :=
  let today := PyDate.isoformat today in
  d <- update_each fs today force_update (map snd (locations w)) (db w) ;;
  Returned (mkwindow d (locations w)).

Definition check_daily_record (fs : filesystem) (today : PyDate.date) (w : t)
  : result t :=
  update_today_stats fs today false w.

(** [poll_locations]: the readings of its own loop only reach the status
    line; then the daily check runs. *)
Definition poll_locations (fs : filesystem) (today : PyDate.date) (w : t)
  : result t :=
  match locations w with
  | [] => Returned w
  | _ => check_daily_record fs today w
  end.

(** What the handler [add_location] shows besides changing the state. *)
Inductive add_outcome : Type :=
  | AddCancelled
  | AddWarning (title text : string)
  | AddDone (location_id' : Z).

(** [add_location]: [dialog] is [None] when the dialog was dismissed,
    otherwise [dialog.values()]. *)
Definition add_location (fs : filesystem) (today : PyDate.date)
    (dialog : option (string * string * string)) (w : t)
  : result (add_outcome * t) :=
  match dialog with
  | None => Returned (AddCancelled, w)
  | Some (name', path', kind') =>
      if (String.eqb name' "" || String.eqb path' "")%bool then
        Returned (AddWarning "Chyba" "Vyplňte název a cestu.", w)
      else
        let (location_id', d) := Database.add_location (db w) name' path' kind' in
        let w' :=
          mkwindow d (dict_set (locations w) location_id'
                               (mkLocation location_id' name' path' kind')) in
        w'' <- poll_locations fs today w' ;;
        Returned (AddDone location_id', w'')
  end.

(** [remove_location]: [current] is [self.location_combo.currentData()],
    [confirmed] the answer to the question box.  Looking up a key that
    [self.locations] does not hold raises [KeyError]. *)
Definition remove_location (current : option Z) (confirmed : bool) (w : t) : result t :=
  match current with
  | None => Returned w
  | Some location_id' =>
      match dict_get (locations w) location_id' with
      | None => Raised KeyError
      | Some _ =>
          if confirmed then
            Returned (mkwindow (Database.remove_location (db w) location_id')
                               (dict_pop (locations w) location_id'))
          else Returned w
      end
  end.

Definition closeEvent (w : t) : t :=
  mkwindow (Database.commit_if_dirty (db w)) (locations w).

(** The state [__init__] sets up on a database file holding [file]: the
    database, and [self.locations], the dictionary comprehension over
    [self.db.list_locations()]. *)
Definition init (file : Database.tables) : t :=
  let d := Database.init file in
  mkwindow d
    (fold_left (fun dict row =>
                  dict_set dict (Database.id row)
                    (mkLocation (Database.id row) (Database.name row)
                                (Database.path row) (Database.kind row)))
               (Database.list_locations d) []).

(** The loop of [filtered_stats]. *)
Fixpoint select_rows (start end_ : PyDate.date) (stats filtered : list Database.stat_row)
  : result (list Database.stat_row) :=
  match stats with
  | [] => Returned filtered
  | row :: rest =>
      row_date <- PyDate.strptime (Database.day row) ;;
      select_rows start end_ rest
        (if PyDate.leb start row_date && PyDate.leb row_date end_
         then (filtered ++ [row])%list else filtered)
  end.

(** [filtered_stats]: [period] is the text of the filter box, [selected]
    the date of the date field. *)
Definition filtered_stats (period : string) (selected : PyDate.date)
    (stats : list Database.stat_row) : result (list Database.stat_row) :=
  if String.eqb period "Vše" then Returned stats
  else
    bounds <-
      (if String.eqb period "Týden" then
         start <- PyDate.sub_days selected (PyDate.weekday selected) ;;
         end_ <- PyDate.add_days start 6 ;;
         Returned (start, end_)
       else if String.eqb period "Měsíc" then
         start <- PyDate.new (PyDate.year selected) (PyDate.month selected) 1 ;;
         if PyDate.month selected =? 12 then
           end_ <- PyDate.new (PyDate.year selected) 12 31 ;;
           Returned (start, end_)
         else
           next_month <- PyDate.new (PyDate.year selected) (PyDate.month selected + 1) 1 ;;
           end_ <- PyDate.sub_days next_month 1 ;;
           Returned (start, end_)
       else
         start <- PyDate.new (PyDate.year selected) 1 1 ;;
         end_ <- PyDate.new (PyDate.year selected) 12 31 ;;
         Returned (start, end_)) ;;
    select_rows (fst bounds) (snd bounds) stats [].

End MonitorWindow.

(** ** Vocabulary of the properties *)

(** The operations on the store: the three mutating methods of
    [Database], the recording of a reading, which ends in one of them, and
    the flush. *)
Inductive operation : Type :=
  | OpAdd (name path kind : string)
  | OpRemove (location_id : Z)
  | OpInsert (location_id : Z) (day : string) (capacity_bytes delta_bytes : Z)
  | OpRecord (location_id : Z) (day : string) (capacity_bytes : Z)
  | OpFlush.

Definition step (db : Database.t) (op : operation) : Database.t :=
  match op with
  | OpAdd n p k => snd (Database.add_location db n p k)
  | OpRemove i => Database.remove_location db i
  | OpInsert i d c x => Database.insert_daily_stat db i d c x
  | OpRecord i d c => MonitorWindow.record_reading db i d c
  | OpFlush => Database.commit_if_dirty db
  end.

Definition run (db : Database.t) (ops : list operation) : Database.t :=
  fold_left step ops db.

(** Every operation but the flush changes the tables. *)
Definition is_mutation (op : operation) : bool :=
  match op with
  | OpAdd _ _ _ | OpRemove _ | OpInsert _ _ _ _ | OpRecord _ _ _ => true
  | OpFlush => false
  end.

(** The rows of [daily_stats] for one location and day. *)
Definition rows_for (c : Database.tables) (location_id : Z) (day : string)
  : list Database.stat_row :=
  filter (fun r => (Database.location_id r =? location_id) && String.eqb (Database.day r) day)
         (Database.daily_stats c).

(** [UNIQUE(location_id, day)]. *)
Definition unique_days (c : Database.tables) : Prop :=
  forall location_id day, (List.length (rows_for c location_id day) <= 1)%nat.

(** Every daily statistic belongs to a registered location. *)
Definition referential (c : Database.tables) : Prop :=
  Forall (fun r => In (Database.location_id r) (map Database.id (Database.locations c)))
         (Database.daily_stats c).

(** Every stored day is the ISO text of a date, as [update_today_stats]
    writes it. *)
Definition iso_rows (rows : list Database.stat_row) : Prop :=
  Forall (fun r => exists d, PyDate.valid d = true /\ Database.day r = PyDate.isoformat d)
         rows.

Definition iso_days (c : Database.tables) : Prop := iso_rows (Database.daily_stats c).

(** [p] is the baseline for recording [location_id] on date [d] over the
    rows [rows]: the row of the location with the latest date strictly
    before [d], or nothing when the location has no row before [d]. *)
Definition baseline (rows : list Database.stat_row) (location_id : Z) (d : PyDate.date)
    (p : option Database.stat_row) : Prop :=
  match p with
  | None =>
      forall r d', In r rows -> Database.location_id r = location_id ->
        PyDate.valid d' = true -> Database.day r = PyDate.isoformat d' ->
        PyDate.ltb d' d = false
  | Some p =>
      In p rows /\ Database.location_id p = location_id /\
      exists dp, PyDate.valid dp = true /\ Database.day p = PyDate.isoformat dp /\
        PyDate.ltb dp d = true /\
        forall r d', In r rows -> Database.location_id r = location_id ->
          PyDate.valid d' = true -> Database.day r = PyDate.isoformat d' ->
          PyDate.ltb d' d = true -> PyDate.leb d' dp = true
  end.

(** The delta the specification asks for, given the baseline. *)
Definition delta_from (p : option Database.stat_row) (capacity : Z) : Z :=
  match p with
  | Some row => capacity - Database.capacity_bytes row
  | None => 0
  end.

(** The sizes of the entries of one directory that can be examined. *)
Fixpoint sizes_here (entries : list (string * node)) : list N :=
  match entries with
  | [] => []
  | (_, File (Some s)) :: rest => s :: sizes_here rest
  | _ :: rest => sizes_here rest
  end.

(** The sizes of the files a walk reaches and can examine: those of the
    directory itself, then those below each sub-directory that is not a
    link. *)
Fixpoint readable_sizes (n : node) : list N :=
  match n with
  | File _ => []
  | Directory _ None => []
  | Directory _ (Some entries) =>
      (sizes_here entries ++
       flat_map (fun entry : string * node =>
                   match snd entry with
                   | Directory false _ => readable_sizes (snd entry)
                   | _ => []
                   end) entries)%list
  end.

Definition total_size (sizes : list N) : Z := Z.of_N (fold_right N.add 0%N sizes).

(** The month and day that [ord2ymd] derives from the number of days
    [n] since the start of a year. *)
Definition month_day (leapyear : bool) (n : Z) : Z * Z :=
  let m := Z.shiftr (n + 50) 5 in
  let preceding := PyDate.DAYS_BEFORE_MONTH m + (if (2 <? m) && leapyear then 1 else 0) in
  if n <? preceding then
    let m := m - 1 in
    let preceding :=
      preceding - (PyDate.DAYS_IN_MONTH m + (if (m =? 2) && leapyear then 1 else 0)) in
    (m, n - preceding + 1)
  else (m, n - preceding + 1).

(** What [month_day] has to satisfy. *)
Definition month_day_ok (leapyear : bool) (n : Z) : bool :=
  let (m, d) := month_day leapyear n in
  (1 <=? m) && (m <=? 12) && (1 <=? d) &&
  (d <=? PyDate.DAYS_IN_MONTH m + (if (m =? 2) && leapyear then 1 else 0)) &&
  (PyDate.DAYS_BEFORE_MONTH m + (if (2 <? m) && leapyear then 1 else 0) + d =? n + 1).

(** The row's day, read as [filtered_stats] reads it, lies between two
    dates, both included. *)
Definition day_between (lo hi : PyDate.date) (r : Database.stat_row) : bool :=
  match PyDate.strptime (Database.day r) with
  | Returned d =>
      (PyDate.toordinal lo <=? PyDate.toordinal d) &&
      (PyDate.toordinal d <=? PyDate.toordinal hi)
  | Raised _ => false
  end.

(** Slicing [series] by the week of [selected] returns the rows from the
    Monday of that week to the Sunday after it, both included, in the order
    of the series. *)
Definition week_slice (selected : PyDate.date) (series : list Database.stat_row) : Prop :=
  exists monday sunday,
    PyDate.valid monday = true /\ PyDate.valid sunday = true /\
    PyDate.weekday monday = 0 /\ PyDate.weekday sunday = 6 /\
    PyDate.toordinal sunday = PyDate.toordinal monday + 6 /\
    PyDate.toordinal monday <= PyDate.toordinal selected <= PyDate.toordinal sunday /\
    MonitorWindow.filtered_stats "Týden" selected series
    = Returned (filter (day_between monday sunday) series).


(** What the user and the timers make the window do. *)
Inductive event : Type :=
  | EvAdd (dialog : option (string * string * string))
  | EvRemove (current : option Z) (confirmed : bool)
  | EvPoll
  | EvDailyCheck
  | EvSessionUpdate
  | EvFlush
  | EvClose.

Definition handle (fs : filesystem) (today : PyDate.date) (w : MonitorWindow.t) (ev : event)
  : result MonitorWindow.t :=
  match ev with
  | EvAdd dialog =>
      r <- MonitorWindow.add_location fs today dialog w ;; Returned (snd r)
  | EvRemove current confirmed => MonitorWindow.remove_location current confirmed w
  | EvPoll => MonitorWindow.poll_locations fs today w
  | EvDailyCheck => MonitorWindow.check_daily_record fs today w
  | EvSessionUpdate => MonitorWindow.update_today_stats fs today true w
  | EvFlush =>
      Returned (MonitorWindow.mkwindow (Database.commit_if_dirty (MonitorWindow.db w))
                                       (MonitorWindow.locations w))
  | EvClose => Returned (MonitorWindow.closeEvent w)
  end.

(** The combo box only offers the keys of [self.locations]. *)
Definition offered (w : MonitorWindow.t) (ev : event) : Prop :=
  match ev with
  | EvRemove (Some i) _ => MonitorWindow.dict_get (MonitorWindow.locations w) i <> None
  | _ => True
  end.

(** The window and its store agree: every location the window tracks is
    filed under its id and registered in the store, every daily statistic
    belongs to a registered location, and every stored day is an ISO
    date. *)
Definition consistent (w : MonitorWindow.t) : Prop :=
  iso_days (Database.conn (MonitorWindow.db w)) /\
  Forall (fun kv => fst kv = MonitorWindow.location_id (snd kv) /\
                    In (fst kv)
                       (map Database.id
                            (Database.locations (Database.conn (MonitorWindow.db w)))))
         (MonitorWindow.locations w) /\
  referential (Database.conn (MonitorWindow.db w)).

(** Ordering a list by a text key, as the two [ORDER BY] clauses do, and
    what it means for a list to be in that order. *)
Section OrderBy.
Context {A : Type} (key : A -> string).

Fixpoint insert_by (x : A) (sorted : list A) : list A :=
  match sorted with
  | [] => [x]
  | s :: rest =>
      if String.ltb (key s) (key x) then s :: insert_by x rest
      else x :: s :: rest
  end.

Definition order_by (l : list A) : list A := fold_right insert_by [] l.

(** No element is followed by one with a smaller key. *)
Definition ascending (l : list A) : Prop :=
  StronglySorted (fun a b => String.leb (key a) (key b) = true) l.

(** Every element is followed only by elements with a greater key. *)
Definition increasing (l : list A) : Prop :=
  StronglySorted (fun a b => String.ltb (key a) (key b) = true) l.

End OrderBy.

(** What the last commit made durable is what the connection sees, unless
    changes are pending. *)
Definition synced (db : Database.t) : Prop :=
  Database.dirty db = false -> Database.disk db = Database.conn db.

(** [self.locations] is a dictionary keyed by location id. *)
Definition keyed (w : MonitorWindow.t) : Prop :=
  NoDup (map fst (MonitorWindow.locations w)) /\
  Forall (fun kv => fst kv = MonitorWindow.location_id (snd kv)) (MonitorWindow.locations w).

(** A run of the window: each step is an event together with the state of
    the file system and the date at that moment. *)
Fixpoint run_events (w : MonitorWindow.t) (ticks : list (filesystem * PyDate.date * event))
  : result MonitorWindow.t :=
  match ticks with
  | [] => Returned w
  | (fs, today, ev) :: rest => w' <- handle fs today w ev ;; run_events w' rest
  end.



(** The row's day, read as [filtered_stats] reads it, falls in a month, in
    a year, between two dates. *)
Definition in_month (y m : Z) (r : Database.stat_row) : bool :=
  match PyDate.strptime (Database.day r) with
  | Returned d => (PyDate.year d =? y) && (PyDate.month d =? m)
  | Raised _ => false
  end.

Definition in_year (y : Z) (r : Database.stat_row) : bool :=
  match PyDate.strptime (Database.day r) with
  | Returned d => PyDate.year d =? y
  | Raised _ => false
  end.

Definition within (start end_ : PyDate.date) (r : Database.stat_row) : bool :=
  match PyDate.strptime (Database.day r) with
  | Returned d => PyDate.leb start d && PyDate.leb d end_
  | Raised _ => false
  end.

(** A text of ASCII characters only, on which [PyDate.strptime] is what
    Python's parser does; beyond ASCII Python also reads other decimal
    digits. *)
Fixpoint ascii_text (s : string) : bool :=
  match s with
  | EmptyString => true
  | String c rest => (N_of_ascii c <? 128)%N && ascii_text rest
  end.

(** ** Sample data *)

(** A store with one folder location and its readings of two days, and the
    window opened on it. *)
Definition sample_tables : Database.tables :=
  Database.mktables
    [Database.mklocation 1 "Data" "/data" "Folder"] 1
    [Database.mkstat 1 1 "2024-03-13" 10 0; Database.mkstat 2 1 "2024-03-14" 12 2] 2.

Definition sample_window : MonitorWindow.t := MonitorWindow.init sample_tables.

(** A machine with the folder [/data] (two files of 10 and 20 bytes, a file
    that vanished after it was listed, a sub-directory with one file of 5
    bytes, a sub-directory that can no longer be read) on a volume with 4096
    bytes in use, and nothing at [/gone]. *)
Definition sample_data : node :=
  Directory false
    (Some [("a.bin", File (Some 10%N));
           ("tmp.part", File None);
           ("sub", Directory false (Some [("c.bin", File (Some 5%N))]));
           ("lost", Directory false None);
           ("b.bin", File (Some 20%N))]).

Definition sample_fs : filesystem :=
  mkfs (fun p => if String.eqb p "/data" then Some sample_data else None)
       (fun p => if String.eqb p "/data" then Some 4096%N else None).

(** * Properties *)

(** ** Lists *)

Lemma filter_all {A : Type} (f : A -> bool) (l : list A) :
  Forall (fun x => f x = true) l -> filter f l = l.
Proof.
  induction 1 as [|x l Hx _ IH]; simpl; [reflexivity|].
  now rewrite Hx, IH.
Qed.

Lemma filter_none {A : Type} (f : A -> bool) (l : list A) :
  Forall (fun x => f x = false) l -> filter f l = [].
Proof.
  induction 1 as [|x l Hx _ IH]; simpl; [reflexivity|].
  now rewrite Hx.
Qed.

Lemma filter_filter {A : Type} (f g : A -> bool) (l : list A) :
  filter f (filter g l) = filter (fun x => g x && f x) l.
Proof.
  induction l as [|x l IH]; simpl; [reflexivity|].
  destruct (g x); simpl; [destruct (f x)|]; now rewrite IH.
Qed.

Lemma max_rowid_bound (seq : Z) (ids : list Z) :
  seq <= fold_right Z.max seq ids /\
  Forall (fun i => i <= fold_right Z.max seq ids) ids.
Proof.
  induction ids as [|i ids [IHs IHf]]; simpl.
  - split; [lia | constructor].
  - split; [lia|]. constructor; [lia|].
    eapply Forall_impl; [|exact IHf]. simpl; intros; lia.
Qed.

Lemma next_rowid_fresh (seq : Z) (ids : list Z) :
  ~ In (Database.next_rowid seq ids) ids.
Proof.
  intros Hin. destruct (max_rowid_bound seq ids) as [_ Hf].
  rewrite Forall_forall in Hf. specialize (Hf _ Hin).
  unfold Database.next_rowid in Hf. lia.
Qed.

(** ** The dirty flag and the batched commit *)

Lemma step_dirty (db : Database.t) (op : operation) :
  is_mutation op = true -> Database.dirty (step db op) = true.
Proof. destruct op; simpl; intros H; try reflexivity; discriminate. Qed.

Lemma step_commits (db : Database.t) (op : operation) :
  is_mutation op = true -> Database.commits (step db op) = Database.commits db.
Proof. destruct op; simpl; intros H; try reflexivity; discriminate. Qed.

Lemma step_disk (db : Database.t) (op : operation) :
  is_mutation op = true -> Database.disk (step db op) = Database.disk db.
Proof. destruct op; simpl; intros H; try reflexivity; discriminate. Qed.

Lemma commit_if_dirty_clean (db : Database.t) :
  Database.dirty db = false -> Database.commit_if_dirty db = db.
Proof. unfold Database.commit_if_dirty; intros ->; reflexivity. Qed.

(** C7. A flush of a store without pending changes writes nothing: the
    store, its durable tables and the number of commits stay as they were,
    which covers the store just opened.  One mutation makes the store dirty;
    the flush after it commits once, makes the connection's tables durable
    and clears the flag; the flush right after that one writes nothing. *)
Theorem flush_commits_exactly_when_dirty :
  forall (file : Database.tables) (clean : Database.t) (op : operation),
    Database.dirty clean = false ->
    is_mutation op = true ->
    Database.commit_if_dirty (Database.init file) = Database.init file /\
    Database.commit_if_dirty clean = clean /\
    let touched := step clean op in
    let flushed := Database.commit_if_dirty touched in
    Database.dirty touched = true /\
    Database.dirty flushed = false /\
    Database.disk flushed = Database.conn touched /\
    Database.conn flushed = Database.conn touched /\
    Database.commits flushed = S (Database.commits clean) /\
    Database.commit_if_dirty flushed = flushed.
Proof.
  intros file clean op Hclean Hop.
  split; [reflexivity|].
  split; [now apply commit_if_dirty_clean|].
  cbv zeta.
  pose proof (step_dirty clean op Hop) as Hd.
  pose proof (step_commits clean op Hop) as Hc.
  unfold Database.commit_if_dirty at 1 2 3 4 5. rewrite Hd. simpl.
  rewrite Hc. repeat split; try reflexivity.
  unfold Database.commit_if_dirty. rewrite Hd. reflexivity.
Qed.

Lemma flush_commits_exactly_when_dirty_witness :
  let clean := Database.init Database.empty in
  let touched := step clean (OpInsert 1 "2024-03-14" 10 0) in
  Database.dirty touched = true /\
  Database.commits (Database.commit_if_dirty touched) = 2%nat.
Proof.
  pose proof (flush_commits_exactly_when_dirty Database.empty
                (Database.init Database.empty) (OpInsert 1 "2024-03-14" 10 0)
                eq_refl eq_refl) as H.
  cbv zeta in H. cbv zeta.
  destruct H as (_ & _ & Hd & _ & _ & _ & Hc & _).
  split; [exact Hd | exact Hc].
Defined.

(** ** Removing a location *)

Lemma remove_location_unknown (db : Database.t) (i : Z) :
  ~ In i (map Database.id (Database.locations (Database.conn db))) ->
  Forall (fun r => Database.location_id r <> i)
         (Database.daily_stats (Database.conn db)) ->
  Database.conn (Database.remove_location db i) = Database.conn db.
Proof.
  intros Hloc Hstat. unfold Database.remove_location, Database.with_conn; simpl.
  rewrite !filter_all.
  - now destruct (Database.conn db).
  - eapply Forall_impl; [|exact Hstat]. simpl. intros r Hr.
    now apply negb_true_iff, Z.eqb_neq.
  - rewrite Forall_forall. intros l Hl.
    apply negb_true_iff, Z.eqb_neq. intros <-. apply Hloc. now apply in_map.
Qed.

(** C9. Each of the three mutating methods [add_location],
    [remove_location] and [insert_daily_stat] (and so the recording of a
    reading, which ends in the last) leaves the dirty flag set whatever rows
    it touched, so the next flush commits.  In particular removing an id
    that no row mentions leaves both tables as they were and still sets the
    flag and causes a commit. *)
Theorem mutation_always_marks_dirty :
  forall (db : Database.t) (op : operation) (unknown : Z),
    is_mutation op = true ->
    ~ In unknown (map Database.id (Database.locations (Database.conn db))) ->
    Forall (fun r => Database.location_id r <> unknown)
           (Database.daily_stats (Database.conn db)) ->
    (Database.dirty (step db op) = true /\
     Database.commits (Database.commit_if_dirty (step db op)) = S (Database.commits db)) /\
    (Database.conn (Database.remove_location db unknown) = Database.conn db /\
     Database.dirty (Database.remove_location db unknown) = true /\
     Database.commits (Database.commit_if_dirty (Database.remove_location db unknown))
     = S (Database.commits db)).
Proof.
  intros db op unknown Hop Hloc Hstat. split; [split|split; [|split]].
  - now apply step_dirty.
  - unfold Database.commit_if_dirty. rewrite (step_dirty db op Hop). simpl.
    now rewrite (step_commits db op Hop).
  - now apply remove_location_unknown.
  - reflexivity.
  - reflexivity.
Qed.

Lemma mutation_always_marks_dirty_witness :
  let db := Database.init Database.empty in
  Database.conn (Database.remove_location db 7) = Database.conn db /\
  Database.dirty (Database.remove_location db 7) = true /\
  Database.commits (Database.commit_if_dirty (Database.remove_location db 7)) = 2%nat.
Proof.
  cbv zeta.
  refine (proj2 (mutation_always_marks_dirty (Database.init Database.empty)
                   (OpRemove 7) 7 eq_refl _ _)).
  - simpl. intros [].
  - simpl. constructor.
Defined.





Lemma referential_remove (db : Database.t) (i : Z) :
  referential (Database.conn db) ->
  referential (Database.conn (Database.remove_location db i)).
Proof.
  unfold referential. simpl. rewrite !Forall_forall. intros Href r Hr.
  apply filter_In in Hr. destruct Hr as [Hin Hne].
  apply negb_true_iff, Z.eqb_neq in Hne.
  specialize (Href r Hin). apply in_map_iff in Href.
  destruct Href as (l & Hid & Hl). apply in_map_iff. exists l. split; [exact Hid|].
  apply filter_In. split; [exact Hl|].
  apply negb_true_iff, Z.eqb_neq. congruence.
Qed.

(** C3. Removing a location leaves no daily statistic of that location
    and no location row with that id.  Both deletions happen in the one
    method, inside the same pending transaction: nothing of it is durable
    before the next commit, and that commit makes both durable together.
    A store in which every statistic belongs to a registered location stays
    so. *)
Theorem remove_location_cascades :
  forall (db : Database.t) (i : Z),
    let db' := Database.remove_location db i in
    Forall (fun r => Database.location_id r <> i)
           (Database.daily_stats (Database.conn db')) /\
    Forall (fun l => Database.id l <> i) (Database.locations (Database.conn db')) /\
    Database.disk db' = Database.disk db /\
    Database.disk (Database.commit_if_dirty db') = Database.conn db' /\
    (referential (Database.conn db) -> referential (Database.conn db')).
Proof.
  intros db i. cbv zeta. repeat split.
  - simpl. rewrite Forall_forall. intros r Hr. apply filter_In in Hr.
    destruct Hr as [_ Hr]. now apply negb_true_iff, Z.eqb_neq in Hr.
  - simpl. rewrite Forall_forall. intros l Hl. apply filter_In in Hl.
    destruct Hl as [_ Hl]. now apply negb_true_iff, Z.eqb_neq in Hl.
  - apply referential_remove.
Qed.

Lemma remove_location_cascades_witness :
  let db := MonitorWindow.record_reading
              (snd (Database.add_location (Database.init Database.empty)
                      "Data" "/data" "Folder")) 1 "2024-03-14" 10 in
  referential (Database.conn (Database.remove_location db 1)).
Proof.
  cbv zeta.
  refine (proj2 (proj2 (proj2 (proj2 (remove_location_cascades _ 1)))) _).
  unfold referential. simpl. constructor; [|constructor]. simpl. now left.
Defined.

(** ** Adding a location *)

(** C10. At the store, adding a location never fails and needs nothing of
    its arguments: whatever the name, path and kind, empty texts included, a
    row with exactly these texts is appended under an id no location row
    had, that id is returned, and the statistics are untouched.  The handler
    of the window is where an empty name or an empty path is turned away:
    it warns and leaves the window, store included, as it was. *)
Theorem add_location_accepts_any_text :
  forall (db : Database.t) (name path kind : string)
         (fs : filesystem) (today : PyDate.date) (w : MonitorWindow.t),
    let rowid := fst (Database.add_location db name path kind) in
    let db' := snd (Database.add_location db name path kind) in
    (~ In rowid (map Database.id (Database.locations (Database.conn db))) /\
     Database.locations (Database.conn db')
     = (Database.locations (Database.conn db)
        ++ [Database.mklocation rowid name path kind])%list /\
     Database.daily_stats (Database.conn db') = Database.daily_stats (Database.conn db) /\
     Database.dirty db' = true) /\
    (let empty_row := fst (Database.add_location db "" "" kind) in
     In (Database.mklocation empty_row "" "" kind)
        (Database.locations (Database.conn (snd (Database.add_location db "" "" kind))))) /\
    MonitorWindow.add_location fs today (Some ("", path, kind)) w
    = Returned (MonitorWindow.AddWarning "Chyba" "Vyplňte název a cestu.", w) /\
    MonitorWindow.add_location fs today (Some (name, "", kind)) w
    = Returned (MonitorWindow.AddWarning "Chyba" "Vyplňte název a cestu.", w).
Proof.
  intros db name path kind fs today w. cbv zeta.
  split; [|split; [|split]].
  - simpl. repeat split. apply next_rowid_fresh.
  - simpl. apply in_or_app. right. now left.
  - reflexivity.
  - unfold MonitorWindow.add_location.
    destruct (String.eqb name ""); reflexivity.
Qed.

(** ** At most one row per location and day *)

Lemma rows_for_insert (db : Database.t) (i : Z) (d : string) (c x : Z) (i' : Z) (d' : string) :
  rows_for (Database.conn (Database.insert_daily_stat db i d c x)) i' d'
  = if (i =? i') && String.eqb d d'
    then [Database.mkstat
            (Database.next_rowid (Database.daily_stats_seq (Database.conn db))
               (map Database.stat_id (Database.daily_stats (Database.conn db))))
            i d c x]
    else rows_for (Database.conn db) i' d'.
Proof.
  unfold rows_for. simpl. rewrite filter_app, filter_filter. simpl.
  destruct (Z.eqb_spec i i') as [->|Hi]; simpl.
  - destruct (String.eqb_spec d d') as [->|Hd]; simpl.
    + rewrite filter_none; [reflexivity|].
      rewrite Forall_forall. intros r _.
      destruct (Database.location_id r =? i'); simpl; [|reflexivity].
      destruct (String.eqb (Database.day r) d'); reflexivity.
    + rewrite app_nil_r. apply filter_ext. intros r.
      destruct (Database.location_id r =? i'); simpl; [|reflexivity].
      destruct (String.eqb_spec (Database.day r) d) as [->|Hr]; simpl.
      * now apply String.eqb_neq in Hd as ->.
      * reflexivity.
  - rewrite app_nil_r. apply filter_ext. intros r.
    destruct (Z.eqb_spec (Database.location_id r) i) as [->|Hr]; simpl.
    + apply Z.eqb_neq in Hi. rewrite Hi.
      now destruct (String.eqb (Database.day r) d).
    + reflexivity.
Qed.

Lemma unique_days_step (db : Database.t) (op : operation) :
  unique_days (Database.conn db) -> unique_days (Database.conn (step db op)).
Proof.
  intros Hu i d. destruct op as [n p k|j|j e c x|j e c|]; cbn [step].
  - apply Hu.
  - unfold rows_for. simpl. rewrite filter_filter.
    specialize (Hu i d). unfold rows_for in Hu.
    etransitivity; [|exact Hu].
    clear Hu. induction (Database.daily_stats (Database.conn db)) as [|r l IH]; simpl; [lia|].
    destruct (negb (Database.location_id r =? j)); simpl;
      destruct ((Database.location_id r =? i) && String.eqb (Database.day r) d);
      simpl; lia.
  - rewrite rows_for_insert. destruct ((j =? i) && String.eqb e d); [simpl; lia | apply Hu].
  - unfold MonitorWindow.record_reading. rewrite rows_for_insert.
    destruct ((j =? i) && String.eqb e d); [simpl; lia | apply Hu].
  - unfold Database.commit_if_dirty. destruct (Database.dirty db); simpl; apply Hu.
Qed.

Lemma unique_days_run (ops : list operation) (db : Database.t) :
  unique_days (Database.conn db) -> unique_days (Database.conn (run db ops)).
Proof.
  revert db. induction ops as [|op ops IH]; intros db Hu; simpl; [exact Hu|].
  apply IH, unique_days_step, Hu.
Qed.

(** C2. From a store whose tables respect [UNIQUE(location_id, day)],
    as the tables of any database file do and the empty tables of a new one,
    every sequence of store operations leads to a store with at most one row
    for each location and day.  Recording a day leaves exactly one row for
    it, the one just written, also when the day had a row before. *)
Theorem one_row_per_location_and_day :
  forall (file : Database.tables) (ops : list operation)
         (location_id : Z) (day : string) (c1 c2 : Z),
    unique_days file ->
    let db := run (Database.init file) ops in
    (List.length (rows_for (Database.conn db) location_id day) <= 1)%nat /\
    let once := MonitorWindow.record_reading db location_id day c1 in
    let twice := MonitorWindow.record_reading once location_id day c2 in
    List.length (rows_for (Database.conn once) location_id day) = 1%nat /\
    List.length (rows_for (Database.conn twice) location_id day) = 1%nat /\
    map Database.capacity_bytes (rows_for (Database.conn twice) location_id day) = [c2].
Proof.
  intros file ops i d c1 c2 Hu. cbv zeta. split.
  - apply (unique_days_run ops (Database.init file)). exact Hu.
  - unfold MonitorWindow.record_reading. rewrite !rows_for_insert.
    rewrite Z.eqb_refl, String.eqb_refl. simpl. repeat split.
Qed.

Lemma one_row_per_location_and_day_witness :
  let db := run (Database.init Database.empty)
                [OpAdd "Data" "/data" "Folder"; OpRecord 1 "2024-03-13" 10;
                 OpRecord 1 "2024-03-14" 12; OpRecord 1 "2024-03-14" 13] in
  (List.length (rows_for (Database.conn db) 1 "2024-03-14") <= 1)%nat.
Proof.
  cbv zeta.
  refine (proj1 (one_row_per_location_and_day Database.empty
                   [OpAdd "Data" "/data" "Folder"; OpRecord 1 "2024-03-13" 10;
                    OpRecord 1 "2024-03-14" 12; OpRecord 1 "2024-03-14" 13]
                   1 "2024-03-14" 0 0 _)).
  intros i d. simpl. lia.
Defined.

(** ** The size probe *)

(** Induction over a tree, with the property known for every entry of a
    listing. *)
Lemma node_tree_ind (P : node -> Prop) :
  (forall size, P (File size)) ->
  (forall link, P (Directory link None)) ->
  (forall link entries,
      Forall (fun entry => P (snd entry)) entries -> P (Directory link (Some entries))) ->
  forall n, P n.
Proof.
  intros Hfile Hgone Hdir.
  fix IH 1. intros [size | link [entries|]].
  - apply Hfile.
  - apply Hdir. induction entries as [|[name e] rest IHrest].
    + constructor.
    + constructor; [apply IH | exact IHrest].
  - apply Hgone.
Qed.

Lemma add_files_nondirs (entries : list (string * node)) (total : Z) :
  LocationSize.add_files (LocationSize.nondirs entries) total
  = Returned (total + total_size (sizes_here entries)).
Proof.
  unfold total_size. revert total.
  induction entries as [|[name [[s|]|link l]] rest IH]; intros total; simpl.
  - f_equal; lia.
  - rewrite IH. f_equal. lia.
  - apply IH.
  - apply IH.
Qed.

Lemma add_items_app (a b : list LocationSize.walk_item) (total : Z) :
  LocationSize.add_items (a ++ b) total
  = (total' <- LocationSize.add_items a total ;; LocationSize.add_items b total').
Proof.
  revert total. induction a as [|[[root dirs] files] a IH]; intros total; simpl.
  - reflexivity.
  - destruct (LocationSize.add_files files total) as [t|e]; simpl; [apply IH | reflexivity].
Qed.

Lemma total_size_app (a b : list N) :
  total_size (a ++ b) = total_size a + total_size b.
Proof.
  unfold total_size. induction a as [|x a IH]; simpl; [lia|].
  rewrite !N2Z.inj_add in *. lia.
Qed.

Lemma total_size_nonneg (sizes : list N) : 0 <= total_size sizes.
Proof. unfold total_size. lia. Qed.

Lemma add_items_walk (n : node) :
  forall (top : string) (total : Z),
    LocationSize.add_items (LocationSize.walk top n) total
    = Returned (total + total_size (readable_sizes n)).
Proof.
  induction n as [size | link | link entries IH] using node_tree_ind;
    intros top total.
  - simpl. f_equal. unfold total_size. simpl. lia.
  - simpl. f_equal. unfold total_size. simpl. lia.
  - cbn [LocationSize.walk readable_sizes LocationSize.add_items].
    rewrite add_files_nondirs. cbn [bind].
    rewrite total_size_app, Z.add_assoc.
    generalize (total + total_size (sizes_here entries)).
    induction IH as [|[name e] rest He _ IHrest]; intros acc.
    + simpl. f_equal. unfold total_size. simpl. lia.
    + cbn [flat_map snd]. rewrite add_items_app, total_size_app.
      destruct e as [size | [|] l].
      * cbn [LocationSize.add_items bind]. rewrite IHrest. reflexivity.
      * cbn [LocationSize.add_items bind]. rewrite IHrest. reflexivity.
      * cbn [snd] in He. rewrite He. cbn [bind]. rewrite IHrest. f_equal. lia.
Qed.

(** [folder_size] never raises. *)
Lemma folder_size_total (fs : filesystem) (path : string) :
  LocationSize.folder_size fs path
  = Returned (match lookup fs path with
              | Some n => total_size (readable_sizes n)
              | None => 0
              end).
Proof.
  unfold LocationSize.folder_size, LocationSize.os_walk.
  destruct (lookup fs path) as [n|].
  - now rewrite add_items_walk.
  - reflexivity.
Qed.

(** C8. A folder walk never fails: it returns the sum of the sizes of the
    files it reaches and can examine.  An entry that was listed and cannot
    be examined any more adds nothing and stops nothing: the walk of a
    directory with such an entry gives what the walk without the entry
    gives, and a readable file in its place adds exactly its size. *)
Theorem folder_walk_skips_unreadable_entries :
  forall (fs : filesystem) (path : string)
         (top : string) (link : bool) (before after : list (string * node))
         (name : string) (size : N),
    LocationSize.folder_size fs path
    = Returned (match lookup fs path with
                | Some n => total_size (readable_sizes n)
                | None => 0
                end) /\
    LocationSize.add_items
      (LocationSize.walk top (Directory link (Some (before ++ (name, File None) :: after)))) 0
    = LocationSize.add_items
        (LocationSize.walk top (Directory link (Some (before ++ after)))) 0 /\
    LocationSize.add_items
      (LocationSize.walk top
         (Directory link (Some (before ++ (name, File (Some size)) :: after)))) 0
    = (total <- LocationSize.add_items
                  (LocationSize.walk top (Directory link (Some (before ++ after)))) 0 ;;
       Returned (total + Z.of_N size)).
Proof.
  intros fs path top link before after name size.
  split; [apply folder_size_total|].
  rewrite !add_items_walk. cbn [bind readable_sizes].
  rewrite !flat_map_app. cbn [flat_map snd app].
  assert (Hhere : forall s,
             total_size (sizes_here (before ++ (name, File s) :: after))
             = total_size (sizes_here (before ++ after))
               + match s with Some x => Z.of_N x | None => 0 end).
  { intros s. induction before as [|[nm [[x|]|l e]] rest IH]; simpl.
    - destruct s as [x|]; unfold total_size; simpl; lia.
    - unfold total_size in *. simpl. lia.
    - exact IH.
    - exact IH. }
  rewrite !total_size_app, !Hhere.
  split; f_equal; lia.
Qed.

Example folder_size_sample :
  LocationSize.compute sample_fs "/data" "Folder" = Returned 35.
Proof. reflexivity. Qed.

(** ** What the probe does when the root cannot be reached *)

Lemma compute_raises_only_for_disk (fs : filesystem) (path kind : string) (e : exn) :
  LocationSize.compute fs path kind = Raised e ->
  kind = "Disk" /\ statvfs_used fs path = None /\ e = OSError.
Proof.
  unfold LocationSize.compute, LocationSize.disk_usage.
  destruct (String.eqb_spec kind "Disk") as [->|Hk].
  - destruct (statvfs_used fs path); [discriminate|].
    intros [= <-]. repeat split.
  - rewrite folder_size_total. discriminate.
Qed.

Lemma compute_nonnegative (fs : filesystem) (path kind : string) (v : Z) :
  LocationSize.compute fs path kind = Returned v -> 0 <= v.
Proof.
  unfold LocationSize.compute, LocationSize.disk_usage.
  destruct (String.eqb kind "Disk").
  - destruct (statvfs_used fs path); [|discriminate]. intros [= <-]. lia.
  - rewrite folder_size_total. intros [= <-].
    destruct (lookup fs path); [apply total_size_nonneg | lia].
Qed.

Lemma compute_folder_unreachable (fs : filesystem) (path kind : string) :
  kind <> "Disk" -> lookup fs path = None ->
  LocationSize.compute fs path kind = Returned 0.
Proof.
  intros Hk Hroot. unfold LocationSize.compute.
  apply String.eqb_neq in Hk. rewrite Hk, folder_size_total, Hroot. reflexivity.
Qed.

(** C5, where the code departs from it. Nothing exists at [/gone]: probed
    as a disk the call raises [OSError], probed as a folder it returns 0
    bytes, because [os.walk] swallows the failure to list its root. *)
Theorem compute_folder_on_missing_root_returns_zero :
  lookup sample_fs "/gone" = None /\
  statvfs_used sample_fs "/gone" = None /\
  LocationSize.compute sample_fs "/gone" "Disk" = Raised OSError /\
  LocationSize.compute sample_fs "/gone" "Folder" = Returned 0.
Proof. repeat split. Qed.

(** ** The calendar *)

Import PyDate.

Example iso_2024_03_14 :
  PyDate.isoformat (PyDate.mkdate 2024 3 14) = "2024-03-14".
Proof. reflexivity. Qed.

Example strptime_2024_03_14 :
  PyDate.strptime "2024-03-14" = Returned (PyDate.mkdate 2024 3 14).
Proof. reflexivity. Qed.

Example weekday_2024_03_14 : PyDate.weekday (PyDate.mkdate 2024 3 14) = 3.
Proof. reflexivity. Qed.

Example ord_max : PyDate.toordinal (PyDate.mkdate 9999 12 31) = PyDate.MAXORDINAL.
Proof. reflexivity. Qed.

Example fromord_max : PyDate.fromordinal PyDate.MAXORDINAL = PyDate.mkdate 9999 12 31.
Proof. reflexivity. Qed.

Lemma valid_fields_iff (y m d : Z) :
  valid_fields y m d = true <->
  1 <= y <= 9999 /\ 1 <= m <= 12 /\ 1 <= d <= days_in_month y m.
Proof.
  unfold valid_fields, MINYEAR, MAXYEAR.
  rewrite !andb_true_iff, !Z.leb_le. tauto.
Qed.

Ltac month_cases m :=
  let H := fresh in
  assert (H : m = 1 \/ m = 2 \/ m = 3 \/ m = 4 \/ m = 5 \/ m = 6 \/
              m = 7 \/ m = 8 \/ m = 9 \/ m = 10 \/ m = 11 \/ m = 12) by lia;
  repeat (destruct H as [H|H]; [subst m|]); [..|subst m].

Lemma days_before_year_step (y : Z) :
  days_before_year (y + 1) = days_before_year y + (if is_leap y then 366 else 365).
Proof.
  unfold days_before_year, is_leap. cbv zeta.
  repeat match goal with
    | |- context [?x mod ?k =? 0] => destruct (Z.eqb_spec (x mod k) 0)
    end; simpl; Z.div_mod_to_equations; lia.
Qed.

Lemma days_before_year_mono (y1 y2 : Z) :
  y1 <= y2 -> days_before_year y1 <= days_before_year y2.
Proof.
  unfold days_before_year. cbv zeta. intros H.
  pose proof (Z.div_le_mono (y1 - 1) (y2 - 1) 4 ltac:(lia) ltac:(lia)) as H4.
  pose proof (Z.div_le_mono (y1 - 1) (y2 - 1) 400 ltac:(lia) ltac:(lia)) as H400.
  assert (H100 : (y2 - 1) / 100 - (y1 - 1) / 100 <= y2 - y1).
  { Z.div_mod_to_equations. lia. }
  lia.
Qed.

Lemma day_of_year_bounds (y m d : Z) :
  valid_fields y m d = true ->
  1 <= days_before_month y m + d <= (if is_leap y then 366 else 365).
Proof.
  rewrite valid_fields_iff. unfold days_before_month, days_in_month.
  intros (_ & Hm & Hd). revert Hd.
  month_cases m; destruct (is_leap y); cbv -[Z.add Z.le Z.lt]; lia.
Qed.

Lemma day_of_year_mono (y m1 d1 m2 d2 : Z) :
  valid_fields y m1 d1 = true -> valid_fields y m2 d2 = true ->
  m1 < m2 ->
  days_before_month y m1 + d1 < days_before_month y m2 + d2.
Proof.
  rewrite !valid_fields_iff. unfold days_before_month, days_in_month.
  intros (_ & Hm1 & Hd1) (_ & Hm2 & Hd2) Hlt. revert Hd1 Hd2.
  month_cases m1; month_cases m2; try lia;
    destruct (is_leap y); cbv -[Z.add Z.le Z.lt]; lia.
Qed.

Lemma toordinal_bounds (d : date) :
  valid d = true -> 1 <= toordinal d <= MAXORDINAL.
Proof.
  intros Hv. unfold valid in Hv.
  pose proof (day_of_year_bounds _ _ _ Hv) as Hb.
  apply valid_fields_iff in Hv. destruct Hv as (Hy & _).
  unfold toordinal, ymd2ord.
  pose proof (days_before_year_mono 1 (year d) ltac:(lia)) as H1.
  pose proof (days_before_year_mono (year d + 1) 10000 ltac:(lia)) as H2.
  rewrite days_before_year_step in H2.
  change (days_before_year 1) with 0 in H1.
  change (days_before_year 10000) with 3652059 in H2.
  unfold MAXORDINAL. destruct (is_leap (year d)); lia.
Qed.

Lemma compare_toordinal (a b : date) :
  valid a = true -> valid b = true ->
  PyDate.compare a b = (toordinal a ?= toordinal b).
Proof.
  intros Ha Hb. unfold valid in Ha, Hb.
  pose proof (day_of_year_bounds _ _ _ Ha) as Ba.
  pose proof (day_of_year_bounds _ _ _ Hb) as Bb.
  unfold PyDate.compare, toordinal, ymd2ord.
  destruct (Z.compare_spec (year a) (year b)) as [Ey|Ly|Ly].
  - rewrite Ey in *.
    destruct (Z.compare_spec (month a) (month b)) as [Em|Lm|Lm].
    + rewrite Em. destruct (Z.compare_spec (day a) (day b));
        symmetry; [apply Z.compare_eq_iff | apply Z.compare_lt_iff | apply Z.compare_gt_iff]; lia.
    + pose proof (day_of_year_mono _ _ _ _ _ Ha Hb Lm).
      symmetry. apply Z.compare_lt_iff. lia.
    + pose proof (day_of_year_mono _ _ _ _ _ Hb Ha Lm).
      symmetry. apply Z.compare_gt_iff. lia.
  - pose proof (days_before_year_mono (year a + 1) (year b) ltac:(lia)) as H.
    rewrite days_before_year_step in H.
    symmetry. apply Z.compare_lt_iff. destruct (is_leap (year a)); lia.
  - pose proof (days_before_year_mono (year b + 1) (year a) ltac:(lia)) as H.
    rewrite days_before_year_step in H.
    symmetry. apply Z.compare_gt_iff. destruct (is_leap (year b)); lia.
Qed.

Lemma leb_toordinal (a b : date) :
  valid a = true -> valid b = true ->
  PyDate.leb a b = (toordinal a <=? toordinal b).
Proof.
  intros Ha Hb. unfold PyDate.leb, Z.leb. now rewrite compare_toordinal.
Qed.

Lemma ltb_toordinal (a b : date) :
  valid a = true -> valid b = true ->
  PyDate.ltb a b = (toordinal a <? toordinal b).
Proof.
  intros Ha Hb. unfold PyDate.ltb, Z.ltb. now rewrite compare_toordinal.
Qed.

Lemma toordinal_inj (a b : date) :
  valid a = true -> valid b = true -> toordinal a = toordinal b -> a = b.
Proof.
  intros Ha Hb E. pose proof (compare_toordinal a b Ha Hb) as C.
  rewrite E, Z.compare_refl in C. unfold PyDate.compare in C.
  destruct a as [ya ma da], b as [yb mb db]. simpl in C.
  destruct (Z.compare_spec ya yb); try discriminate.
  destruct (Z.compare_spec ma mb); try discriminate.
  apply Z.compare_eq_iff in C. congruence.
Qed.

Lemma days_before_year_closed (a b c e : Z) :
  0 <= b <= 3 -> 0 <= c <= 24 -> 0 <= e <= 3 ->
  days_before_year (a * 400 + 1 + (b * 100 + c * 4 + e))
  = a * 146097 + b * 36524 + c * 1461 + e * 365.
Proof.
  intros Hb Hc He. unfold days_before_year. cbv zeta.
  Z.div_mod_to_equations; lia.
Qed.

Lemma is_leap_closed (a b c e : Z) :
  0 <= b <= 3 -> 0 <= c <= 24 -> 0 <= e <= 3 ->
  is_leap (a * 400 + 1 + (b * 100 + c * 4 + e))
  = (e =? 3) && (negb (c =? 24) || (b =? 3)).
Proof.
  intros Hb Hc He. unfold is_leap.
  destruct (Z.eqb_spec e 3), (Z.eqb_spec c 24), (Z.eqb_spec b 3);
    repeat match goal with
      | |- context [?x mod ?k =? 0] => destruct (Z.eqb_spec (x mod k) 0)
      end; simpl; try reflexivity; exfalso; Z.div_mod_to_equations; lia.
Qed.

Lemma forallb_upto (P : Z -> bool) (k : nat) :
  forallb P (map Z.of_nat (seq 0 k)) = true ->
  forall n, 0 <= n < Z.of_nat k -> P n = true.
Proof.
  intros H n Hn. rewrite forallb_forall in H. apply H.
  apply in_map_iff. exists (Z.to_nat n). split; [lia|].
  apply in_seq. lia.
Qed.

Lemma month_day_correct (leapyear : bool) (n : Z) :
  0 <= n < (if leapyear then 366 else 365) ->
  month_day_ok leapyear n = true.
Proof.
  destruct leapyear; intros Hn.
  - apply (forallb_upto (month_day_ok true) 366); [vm_compute; reflexivity | lia].
  - apply (forallb_upto (month_day_ok false) 365); [vm_compute; reflexivity | lia].
Qed.

Lemma ord2ymd_shape (n : Z) :
  ord2ymd n =
  let n0 := n - 1 in
  let n400 := n0 / DI400Y in
  let r1 := n0 mod DI400Y in
  let n100 := r1 / DI100Y in
  let r2 := r1 mod DI100Y in
  let n4 := r2 / DI4Y in
  let r3 := r2 mod DI4Y in
  let n1 := r3 / 365 in
  let r4 := r3 mod 365 in
  let y := n400 * 400 + 1 + (n100 * 100 + n4 * 4 + n1) in
  if (n1 =? 4) || (n100 =? 4) then mkdate (y - 1) 12 31
  else
    let leapyear := (n1 =? 3) && (negb (n4 =? 24) || (n100 =? 3)) in
    mkdate y (fst (month_day leapyear r4)) (snd (month_day leapyear r4)).
Proof.
  unfold ord2ymd, month_day. cbv zeta.
  destruct (_ || _); [reflexivity|].
  destruct (_ <? _); reflexivity.
Qed.

Theorem ord2ymd_correct (n : Z) :
  1 <= n <= MAXORDINAL ->
  valid (ord2ymd n) = true /\ toordinal (ord2ymd n) = n.
Proof.
  intros Hn. unfold MAXORDINAL in Hn. rewrite ord2ymd_shape. cbv zeta.
  unfold DI400Y, DI100Y, DI4Y.
  set (n0 := n - 1).
  pose proof (Z.div_mod n0 146097 ltac:(lia)) as E1.
  pose proof (Z.mod_pos_bound n0 146097 ltac:(lia)) as B1.
  set (n400 := n0 / 146097) in *. set (r1 := n0 mod 146097) in *.
  pose proof (Z.div_mod r1 36524 ltac:(lia)) as E2.
  pose proof (Z.mod_pos_bound r1 36524 ltac:(lia)) as B2.
  set (n100 := r1 / 36524) in *. set (r2 := r1 mod 36524) in *.
  pose proof (Z.div_mod r2 1461 ltac:(lia)) as E3.
  pose proof (Z.mod_pos_bound r2 1461 ltac:(lia)) as B3.
  set (n4 := r2 / 1461) in *. set (r3 := r2 mod 1461) in *.
  pose proof (Z.div_mod r3 365 ltac:(lia)) as E4.
  pose proof (Z.mod_pos_bound r3 365 ltac:(lia)) as B4.
  set (n1 := r3 / 365) in *. set (r4 := r3 mod 365) in *.
  assert (H400 : 0 <= n400 <= 24) by (subst n0; lia).
  assert (H100 : 0 <= n100 <= 4) by lia.
  assert (H4 : 0 <= n4 <= 24) by lia.
  assert (H1 : 0 <= n1 <= 4) by lia.
  clearbody n400 r1 n100 r2 n4 r3 n1 r4.
  destruct (Z.eqb_spec n1 4) as [E|N1]; [|destruct (Z.eqb_spec n100 4) as [E|N100]];
    cbn [orb].
  - (* the last day of a leap year *)
    subst n1. assert (H4' : 0 <= n4 <= 23) by lia.
    unfold valid, valid_fields, toordinal, ymd2ord, days_in_month, days_before_month.
    cbn [year month day].
    replace (n400 * 400 + 1 + (n100 * 100 + n4 * 4 + 4) - 1)
      with (n400 * 400 + 1 + (n100 * 100 + n4 * 4 + 3)) by lia.
    assert (H100' : 0 <= n100 <= 3) by lia.
    rewrite is_leap_closed, days_before_year_closed by lia.
    replace (n4 =? 24) with false by (symmetry; apply Z.eqb_neq; lia).
    unfold MINYEAR, MAXYEAR. simpl.
    split; [|subst n0; lia].
    repeat (apply andb_true_intro; split); apply Z.leb_le; lia.
  - subst n100.
    assert (n4 = 0 /\ n1 = 0 /\ r4 = 0) as (-> & -> & ->) by lia.
    unfold valid, valid_fields, toordinal, ymd2ord, days_in_month, days_before_month.
    cbn [year month day].
    replace (n400 * 400 + 1 + (4 * 100 + 0 * 4 + 0) - 1)
      with (n400 * 400 + 1 + (3 * 100 + 24 * 4 + 3)) by lia.
    rewrite is_leap_closed, days_before_year_closed by lia.
    unfold MINYEAR, MAXYEAR. simpl.
    split; [|subst n0; lia].
    repeat (apply andb_true_intro; split); apply Z.leb_le; lia.
  - assert (H100' : 0 <= n100 <= 3) by lia.
    assert (H1' : 0 <= n1 <= 3) by lia.
    set (leapyear := (n1 =? 3) && (negb (n4 =? 24) || (n100 =? 3))).
    assert (Hr4 : 0 <= r4 < (if leapyear then 366 else 365)).
    { destruct leapyear eqn:El; [|lia]. lia. }
    pose proof (month_day_correct leapyear r4 Hr4) as Hmd.
    unfold month_day_ok in Hmd.
    destruct (month_day leapyear r4) as [m d]. cbn [fst snd].
    rewrite !andb_true_iff in Hmd.
    destruct Hmd as ((((Hm1 & Hm2) & Hd1) & Hd2) & Hsum).
    apply Z.leb_le in Hm1, Hm2, Hd1, Hd2. apply Z.eqb_eq in Hsum.
    unfold valid, valid_fields, toordinal, ymd2ord, days_in_month, days_before_month.
    cbn [year month day].
    rewrite is_leap_closed, days_before_year_closed by lia.
    fold leapyear.
    unfold MINYEAR, MAXYEAR.
    split.
    + repeat (apply andb_true_intro; split); apply Z.leb_le; try lia.
      destruct ((m =? 2) && leapyear) eqn:E2m; [|lia].
      apply andb_true_iff in E2m. destruct E2m as [E2m _].
      apply Z.eqb_eq in E2m. subst m. simpl in Hd2. lia.
    + subst n0. lia.
Qed.

(** *** The ISO text of a date *)

Ltac digit_cases k :=
  let H := fresh in
  assert (H : k = 0 \/ k = 1 \/ k = 2 \/ k = 3 \/ k = 4 \/ k = 5 \/
              k = 6 \/ k = 7 \/ k = 8 \/ k = 9) by lia;
  repeat (destruct H as [H|H]; [subst k|]); [..|subst k].

Lemma digit_value_digit (k : Z) : 0 <= k <= 9 -> digit_value (digit k) = Some k.
Proof. intros H. digit_cases k; reflexivity. Qed.

Lemma digit_not_hyphen (k : Z) : 0 <= k <= 9 -> Ascii.eqb (digit k) "-" = false.
Proof. intros H. digit_cases k; reflexivity. Qed.

Lemma digit_not_space (k : Z) : 0 <= k <= 9 -> Ascii.eqb (digit k) " " = false.
Proof. intros H. digit_cases k; reflexivity. Qed.

Lemma digit_compare (a b : Z) :
  0 <= a <= 9 -> 0 <= b <= 9 -> Ascii.compare (digit a) (digit b) = (a ?= b).
Proof.
  intros Ha Hb. digit_cases a; digit_cases b; reflexivity.
Qed.

Lemma compare_fmt02 (x y : Z) (s t : string) :
  0 <= x < 100 -> 0 <= y < 100 ->
  String.compare (fmt02 x ++ s) (fmt02 y ++ t)
  = match x ?= y with Eq => String.compare s t | c => c end.
Proof.
  intros Hx Hy. unfold fmt02. cbn [String.append String.compare].
  rewrite !digit_compare by (Z.div_mod_to_equations; lia).
  destruct (Z.compare_spec (x / 10) (y / 10)) as [E1|L1|L1];
    [destruct (Z.compare_spec (x mod 10) (y mod 10)) as [E0|L0|L0]|..];
    destruct (Z.compare_spec x y) as [E|L|L]; try reflexivity;
    exfalso; Z.div_mod_to_equations; lia.
Qed.

Lemma compare_fmt04 (x y : Z) (s t : string) :
  0 <= x < 10000 -> 0 <= y < 10000 ->
  String.compare (fmt04 x ++ s) (fmt04 y ++ t)
  = match x ?= y with Eq => String.compare s t | c => c end.
Proof.
  intros Hx Hy. unfold fmt04. cbn [String.append String.compare].
  rewrite !digit_compare by (Z.div_mod_to_equations; lia).
  destruct (Z.compare_spec (x / 1000) (y / 1000)) as [E3|L3|L3];
    [destruct (Z.compare_spec (x / 100 mod 10) (y / 100 mod 10)) as [E2|L2|L2];
     [destruct (Z.compare_spec (x / 10 mod 10) (y / 10 mod 10)) as [E1|L1|L1];
      [destruct (Z.compare_spec (x mod 10) (y mod 10)) as [E0|L0|L0]|..]|..]|..];
    destruct (Z.compare_spec x y) as [E|L|L]; try reflexivity;
    exfalso; Z.div_mod_to_equations; lia.
Qed.

Lemma string_compare_refl (s : string) : String.compare s s = Eq.
Proof.
  pose proof (String.compare_antisym s s) as H.
  destruct (String.compare s s); simpl in H; congruence.
Qed.

Lemma days_in_month_le_31 (y m : Z) : 1 <= m <= 12 -> days_in_month y m <= 31.
Proof.
  intros Hm. unfold days_in_month.
  month_cases m; destruct (is_leap y); cbv -[Z.add Z.le Z.lt]; lia.
Qed.

Lemma isoformat_compare (a b : date) :
  valid a = true -> valid b = true ->
  String.compare (isoformat a) (isoformat b) = PyDate.compare a b.
Proof.
  intros Ha Hb. unfold valid in *. apply valid_fields_iff in Ha, Hb.
  destruct Ha as (Hya & Hma & Hda), Hb as (Hyb & Hmb & Hdb).
  pose proof (days_in_month_le_31 (year a) (month a) Hma).
  pose proof (days_in_month_le_31 (year b) (month b) Hmb).
  unfold isoformat, PyDate.compare.
  rewrite compare_fmt04 by lia.
  destruct (year a ?= year b); try reflexivity.
  cbn [String.append String.compare]. change (Ascii.compare "-" "-") with Eq. cbv iota.
  rewrite compare_fmt02 by lia.
  destruct (month a ?= month b); try reflexivity.
  cbn [String.append String.compare]. change (Ascii.compare "-" "-") with Eq. cbv iota.
  change (fmt02 (day a)) with (fmt02 (day a) ++ "")%string.
  change (fmt02 (day b)) with (fmt02 (day b) ++ "")%string.
  rewrite compare_fmt02 by lia.
  destruct (day a ?= day b); reflexivity.
Qed.

Lemma split_hyphen_fmt02 (k : Z) (rest : string) :
  0 <= k < 100 ->
  split_hyphen (fmt02 k ++ String "-" rest) = Some (fmt02 k, rest).
Proof.
  intros Hk. unfold fmt02. cbn [String.append split_hyphen].
  rewrite !digit_not_hyphen by (Z.div_mod_to_equations; lia).
  reflexivity.
Qed.

Lemma parse_month_fmt02 (m : Z) : 1 <= m <= 12 -> parse_month (fmt02 m) = Some m.
Proof. intros Hm. month_cases m; reflexivity. Qed.

Lemma parse_day_fmt02 (d : Z) : 1 <= d <= 31 -> parse_day (fmt02 d) = Some d.
Proof.
  intros Hd.
  assert (H : d <= 10 \/ 11 <= d <= 20 \/ 21 <= d) by lia.
  destruct H as [H|[H|H]].
  - assert (E : d = 1 \/ d = 2 \/ d = 3 \/ d = 4 \/ d = 5 \/ d = 6 \/ d = 7 \/
                d = 8 \/ d = 9 \/ d = 10) by lia.
    repeat (destruct E as [E|E]; [subst d; reflexivity|]). subst d; reflexivity.
  - assert (E : d = 11 \/ d = 12 \/ d = 13 \/ d = 14 \/ d = 15 \/ d = 16 \/ d = 17 \/
                d = 18 \/ d = 19 \/ d = 20) by lia.
    repeat (destruct E as [E|E]; [subst d; reflexivity|]). subst d; reflexivity.
  - assert (E : d = 21 \/ d = 22 \/ d = 23 \/ d = 24 \/ d = 25 \/ d = 26 \/ d = 27 \/
                d = 28 \/ d = 29 \/ d = 30 \/ d = 31) by lia.
    repeat (destruct E as [E|E]; [subst d; reflexivity|]). subst d; reflexivity.
Qed.

Lemma strptime_isoformat (d : date) :
  valid d = true -> strptime (isoformat d) = Returned d.
Proof.
  intros Hv. pose proof Hv as Hv'. unfold valid in Hv'.
  apply valid_fields_iff in Hv'. destruct Hv' as (Hy & Hm & Hd).
  pose proof (days_in_month_le_31 (year d) (month d) Hm) as H31.
  unfold isoformat, strptime.
  unfold fmt04 at 1. cbn [String.append].
  rewrite !digit_value_digit by (Z.div_mod_to_equations; lia).
  change (Ascii.eqb "-" "-") with true. cbv iota.
  rewrite split_hyphen_fmt02 by lia.
  rewrite parse_month_fmt02, parse_day_fmt02 by lia.
  replace (year d / 1000 * 1000 + year d / 100 mod 10 * 100
           + year d / 10 mod 10 * 10 + year d mod 10) with (year d)
    by (Z.div_mod_to_equations; lia).
  unfold new. fold (valid d). rewrite Hv. now destruct d.
Qed.

Lemma isoformat_inj (a b : date) :
  valid a = true -> valid b = true -> isoformat a = isoformat b -> a = b.
Proof.
  intros Ha Hb E. pose proof (strptime_isoformat a Ha) as Sa.
  rewrite E, (strptime_isoformat b Hb) in Sa. congruence.
Qed.

(** ** Slicing a series by week *)

Lemma select_rows_iso (start end_ : date) (series : list Database.stat_row) :
  valid start = true -> valid end_ = true -> iso_rows series ->
  forall filtered,
    MonitorWindow.select_rows start end_ series filtered
    = Returned (filtered ++ filter (day_between start end_) series).
Proof.
  intros Hs He Hiso. induction Hiso as [|row rest (d & Hd & Eday) _ IH];
    intros filtered; cbn [MonitorWindow.select_rows filter].
  - now rewrite app_nil_r.
  - unfold day_between at 1. rewrite Eday, strptime_isoformat by exact Hd.
    cbn [bind]. rewrite IH, !leb_toordinal by assumption.
    destruct ((toordinal start <=? toordinal d) && (toordinal d <=? toordinal end_)).
    + now rewrite <- app_assoc.
    + reflexivity.
Qed.

Lemma text_tyden_is_not_vse : String.eqb "Týden" "Vše" = false.
Proof. reflexivity. Qed.

(** C4, as stated, fails: for the valid reference date 9999-12-29 the
    Sunday of its week lies beyond the last date Python can hold, and slicing
    even the empty series raises [OverflowError] instead of returning rows. *)
Lemma week_slice_fails_in_last_week_of_9999 :
  valid (mkdate 9999 12 29) = true /\
  MonitorWindow.filtered_stats "Týden" (mkdate 9999 12 29) [] = Raised OverflowError /\
  ~ week_slice (mkdate 9999 12 29) [].
Proof.
  assert (E : MonitorWindow.filtered_stats "Týden" (mkdate 9999 12 29) []
              = Raised OverflowError) by (vm_compute; reflexivity).
  split; [reflexivity|]. split; [exact E|].
  intros (monday & sunday & _ & _ & _ & _ & _ & _ & H).
  rewrite E in H. discriminate H.
Qed.

(** C4, amended. For every series of rows whose days are ISO dates and
    every reference date up to 9999-12-26, slicing with the week period
    returns exactly the rows whose day lies between the Monday of the
    reference date's week and the Sunday after it, both included, in the
    order of the series. *)
Theorem week_slice_is_monday_to_sunday :
  forall (series : list Database.stat_row) (selected : date),
    valid selected = true ->
    iso_rows series ->
    PyDate.leb selected (mkdate 9999 12 26) = true ->
    week_slice selected series.
Proof.
  intros series selected Hv Hiso Hmax.
  pose proof (toordinal_bounds selected Hv) as Hord.
  rewrite leb_toordinal in Hmax by (exact Hv || reflexivity).
  apply Z.leb_le in Hmax. change (toordinal (mkdate 9999 12 26)) with 3652054 in Hmax.
  unfold MAXORDINAL in Hord.
  set (o := toordinal selected - weekday selected).
  assert (Ho : 1 <= o /\ o + 6 <= 3652059 /\ (o + 6) mod 7 = 0 /\
               o <= toordinal selected <= o + 6).
  { subst o. unfold weekday. Z.div_mod_to_equations. lia. }
  destruct Ho as (Ho1 & Ho2 & Ho3 & Ho4).
  destruct (ord2ymd_correct o) as [Vm Om]; [unfold MAXORDINAL; lia|].
  destruct (ord2ymd_correct (o + 6)) as [Vs Os]; [unfold MAXORDINAL; lia|].
  exists (ord2ymd o), (ord2ymd (o + 6)).
  split; [exact Vm|]. split; [exact Vs|].
  split; [unfold weekday; rewrite Om; exact Ho3|].
  split; [unfold weekday; rewrite Os; Z.div_mod_to_equations; lia|].
  split; [lia|]. split; [lia|].
  unfold MonitorWindow.filtered_stats. rewrite text_tyden_is_not_vse, String.eqb_refl.
  unfold sub_days, add_days at 1.
  replace (toordinal selected + - weekday selected) with o by (subst o; lia).
  replace ((0 <? o) && (o <=? MAXORDINAL)) with true
    by (symmetry; apply andb_true_iff; unfold MAXORDINAL; split;
        [apply Z.ltb_lt | apply Z.leb_le]; lia).
  cbn [bind]. unfold add_days, fromordinal. rewrite Om.
  replace ((0 <? o + 6) && (o + 6 <=? MAXORDINAL)) with true
    by (symmetry; apply andb_true_iff; unfold MAXORDINAL; split;
        [apply Z.ltb_lt | apply Z.leb_le]; lia).
  cbn [bind fst snd].
  now rewrite select_rows_iso.
Qed.

Lemma week_slice_is_monday_to_sunday_witness :
  week_slice (mkdate 2024 3 14)
    [Database.mkstat 1 1 "2024-03-10" 10 0; Database.mkstat 2 1 "2024-03-11" 11 1;
     Database.mkstat 3 1 "2024-03-17" 12 1; Database.mkstat 4 1 "2024-03-18" 13 1].
Proof.
  apply week_slice_is_monday_to_sunday.
  - reflexivity.
  - repeat constructor.
    + exists (mkdate 2024 3 10). split; reflexivity.
    + exists (mkdate 2024 3 11). split; reflexivity.
    + exists (mkdate 2024 3 17). split; reflexivity.
    + exists (mkdate 2024 3 18). split; reflexivity.
  - reflexivity.
Defined.

Example week_slice_2024_03_14 :
  MonitorWindow.filtered_stats "Týden" (mkdate 2024 3 14)
    [Database.mkstat 1 1 "2024-03-10" 10 0; Database.mkstat 2 1 "2024-03-11" 11 1;
     Database.mkstat 3 1 "2024-03-17" 12 1; Database.mkstat 4 1 "2024-03-18" 13 1]
  = Returned [Database.mkstat 2 1 "2024-03-11" 11 1; Database.mkstat 3 1 "2024-03-17" 12 1].
Proof. vm_compute. reflexivity. Qed.

(** ** The delta of a recorded day *)

Lemma text_ltb_iso (a b : date) :
  valid a = true -> valid b = true ->
  String.ltb (isoformat a) (isoformat b) = (toordinal a <? toordinal b).
Proof.
  intros Ha Hb. unfold String.ltb, Z.ltb.
  now rewrite isoformat_compare, compare_toordinal.
Qed.

Lemma text_ltb_irrefl (s : string) : String.ltb s s = false.
Proof. unfold String.ltb. now rewrite string_compare_refl. Qed.

(** [latest] on ISO days: nothing for no rows, otherwise one of the rows,
    with no row of a later day. *)
Lemma latest_iso (rows : list Database.stat_row) :
  iso_rows rows ->
  match Database.latest rows with
  | None => rows = []
  | Some p =>
      In p rows /\
      Forall (fun q => String.ltb (Database.day p) (Database.day q) = false) rows
  end.
Proof.
  induction 1 as [|r rest (d & Hd & Ed) Hrest IH]; cbn [Database.latest]; [reflexivity|].
  destruct (Database.latest rest) as [p|].
  - destruct IH as [Hin Hmax].
    assert (Hp : exists dp, valid dp = true /\ Database.day p = isoformat dp).
    { unfold iso_rows in Hrest. rewrite Forall_forall in Hrest. now apply Hrest. }
    destruct Hp as (dp & Hdp & Edp).
    destruct (String.ltb (Database.day r) (Database.day p)) eqn:Hlt.
    + split; [now right|]. constructor; [|exact Hmax].
      rewrite Ed, Edp, text_ltb_iso in * by assumption.
      apply Z.ltb_lt in Hlt. apply Z.ltb_ge. lia.
    + split; [now left|]. constructor; [apply text_ltb_irrefl|].
      rewrite Forall_forall in *. intros q Hq.
      destruct (Hrest q Hq) as (dq & Hdq & Edq). specialize (Hmax q Hq).
      rewrite Ed, Edp, Edq, !text_ltb_iso in * by assumption.
      apply Z.ltb_ge in Hlt, Hmax. apply Z.ltb_ge. lia.
  - subst rest. split; [now left|]. constructor; [apply text_ltb_irrefl | constructor].
Qed.

Lemma iso_rows_filter (f : Database.stat_row -> bool) (rows : list Database.stat_row) :
  iso_rows rows -> iso_rows (filter f rows).
Proof.
  unfold iso_rows. rewrite !Forall_forall. intros H r Hr.
  apply filter_In in Hr. now apply H.
Qed.

(** The baseline the code reads is the baseline the specification names. *)
Lemma last_stat_before_day_is_baseline (db : Database.t) (i : Z) (d : date) :
  valid d = true -> iso_days (Database.conn db) ->
  baseline (Database.daily_stats (Database.conn db)) i d
           (Database.last_stat_before_day db i (isoformat d)).
Proof.
  intros Hd Hiso. unfold Database.last_stat_before_day.
  set (earlier := fun r => (Database.location_id r =? i)
                           && String.ltb (Database.day r) (isoformat d)).
  pose proof (latest_iso (filter earlier (Database.daily_stats (Database.conn db)))
                (iso_rows_filter _ _ Hiso)) as Hl.
  assert (Hearlier : forall r d', In r (Database.daily_stats (Database.conn db)) ->
             Database.location_id r = i -> valid d' = true ->
             Database.day r = isoformat d' ->
             earlier r = PyDate.ltb d' d).
  { intros r d' _ Hi Hd' Er. unfold earlier.
    rewrite Hi, Z.eqb_refl, Er, text_ltb_iso, ltb_toordinal by assumption.
    reflexivity. }
  destruct (Database.latest _) as [p|]; unfold baseline.
  - destruct Hl as [Hin Hmax]. apply filter_In in Hin. destruct Hin as [Hin Hp].
    assert (Hpi : Database.location_id p = i).
    { unfold earlier in Hp. apply andb_true_iff in Hp. now apply Z.eqb_eq. }
    unfold iso_days, iso_rows in Hiso. rewrite Forall_forall in Hiso.
    destruct (Hiso p Hin) as (dp & Hdp & Edp).
    split; [exact Hin|]. split; [exact Hpi|].
    exists dp. split; [exact Hdp|]. split; [exact Edp|].
    split; [now rewrite <- (Hearlier p dp Hin Hpi Hdp Edp)|].
    intros r d' Hr Hi Hd' Er Hlt.
    rewrite Forall_forall in Hmax.
    assert (Hrin : In r (filter earlier (Database.daily_stats (Database.conn db)))).
    { apply filter_In. split; [exact Hr|]. now rewrite (Hearlier r d' Hr Hi Hd' Er). }
    specialize (Hmax r Hrin).
    rewrite Edp, Er, text_ltb_iso in Hmax by assumption.
    rewrite leb_toordinal by assumption.
    apply Z.ltb_ge in Hmax. now apply Z.leb_le.
  - intros r d' Hr Hi Hd' Er.
    rewrite <- (Hearlier r d' Hr Hi Hd' Er).
    destruct (earlier r) eqn:Hr'; [|reflexivity].
    assert (Hrin : In r (filter earlier (Database.daily_stats (Database.conn db))))
      by (apply filter_In; now split).
    rewrite Hl in Hrin. destruct Hrin.
Qed.

(** Writing the row of a day leaves the rows of earlier days alone. *)
Lemma last_stat_before_day_insert (db : Database.t) (i : Z) (today : string) (c x : Z) :
  Database.last_stat_before_day (Database.insert_daily_stat db i today c x) i today
  = Database.last_stat_before_day db i today.
Proof.
  unfold Database.last_stat_before_day. f_equal. simpl.
  rewrite filter_app, filter_filter. simpl.
  rewrite Z.eqb_refl, text_ltb_irrefl. simpl. rewrite app_nil_r.
  apply filter_ext. intros r.
  destruct (Database.location_id r =? i); simpl; [|reflexivity].
  destruct (String.eqb_spec (Database.day r) today) as [->|Hne]; simpl.
  - now rewrite text_ltb_irrefl.
  - reflexivity.
Qed.

Lemma stat_for_day_record (db : Database.t) (i : Z) (today : string) (c : Z) :
  exists rowid,
    Database.stat_for_day (MonitorWindow.record_reading db i today c) i today
    = Some (Database.mkstat rowid i today c
              (delta_from (Database.last_stat_before_day db i today) c)).
Proof.
  unfold MonitorWindow.record_reading.
  change (Database.stat_for_day ?d i today)
    with (hd_error (rows_for (Database.conn d) i today)).
  rewrite rows_for_insert, Z.eqb_refl, String.eqb_refl. simpl.
  eexists. reflexivity.
Qed.

(** C1. Recording a capacity for a location and a date stores, next to the
    capacity, the capacity minus that of the location's row with the latest
    date strictly before the recorded one, or 0 when the location has no
    earlier row.  Recording the same date again with another capacity stores
    the new capacity and a delta against that same earlier row: the row
    being overwritten plays no part. *)
Theorem recorded_delta_uses_prior_day_baseline :
  forall (db : Database.t) (location_id : Z) (d : date) (c1 c2 : Z),
    valid d = true ->
    iso_days (Database.conn db) ->
    exists p : option Database.stat_row,
      baseline (Database.daily_stats (Database.conn db)) location_id d p /\
      let today := isoformat d in
      let once := MonitorWindow.record_reading db location_id today c1 in
      let twice := MonitorWindow.record_reading once location_id today c2 in
      (exists rowid,
          Database.stat_for_day once location_id today
          = Some (Database.mkstat rowid location_id today c1 (delta_from p c1))) /\
      (exists rowid,
          Database.stat_for_day twice location_id today
          = Some (Database.mkstat rowid location_id today c2 (delta_from p c2))).
Proof.
  intros db i d c1 c2 Hd Hiso.
  exists (Database.last_stat_before_day db i (isoformat d)).
  split; [now apply last_stat_before_day_is_baseline|].
  cbv zeta. split; [apply stat_for_day_record|].
  destruct (stat_for_day_record (MonitorWindow.record_reading db i (isoformat d) c1)
              i (isoformat d) c2) as (rowid & Hrow).
  exists rowid. rewrite Hrow. unfold MonitorWindow.record_reading at 1.
  now rewrite last_stat_before_day_insert.
Qed.

Lemma recorded_delta_uses_prior_day_baseline_witness :
  let db := run (Database.init Database.empty)
                [OpAdd "Data" "/data" "Folder";
                 OpRecord 1 "2024-03-13" 10737418240;
                 OpRecord 1 "2024-03-14" 12884901888] in
  exists p : option Database.stat_row,
    baseline (Database.daily_stats (Database.conn db)) 1 (mkdate 2024 3 15) p /\
    let today := isoformat (mkdate 2024 3 15) in
    let once := MonitorWindow.record_reading db 1 today 13421772800 in
    let twice := MonitorWindow.record_reading once 1 today 13958643712 in
    (exists rowid,
        Database.stat_for_day once 1 today
        = Some (Database.mkstat rowid 1 today 13421772800 (delta_from p 13421772800))) /\
    (exists rowid,
        Database.stat_for_day twice 1 today
        = Some (Database.mkstat rowid 1 today 13958643712 (delta_from p 13958643712))).
Proof.
  cbv zeta.
  apply (recorded_delta_uses_prior_day_baseline
           (run (Database.init Database.empty)
                [OpAdd "Data" "/data" "Folder";
                 OpRecord 1 "2024-03-13" 10737418240;
                 OpRecord 1 "2024-03-14" 12884901888])
           1 (mkdate 2024 3 15) 13421772800 13958643712).
  - reflexivity.
  - unfold iso_days, iso_rows. simpl. repeat constructor.
    + exists (mkdate 2024 3 13). split; reflexivity.
    + exists (mkdate 2024 3 14). split; reflexivity.
Defined.

(** The scenario of the specification: 10 GB on the first day, 12 GB on the
    second, then 12.5 GB on the second day again. *)
Example data_scenario :
  map (fun r => (Database.day r, Database.capacity_bytes r, Database.delta_bytes r))
      (Database.stats_for_location
         (run (Database.init Database.empty)
              [OpAdd "Data" "/data" "Folder";
               OpRecord 1 "2024-03-13" 10737418240;
               OpRecord 1 "2024-03-14" 12884901888;
               OpRecord 1 "2024-03-14" 13421772800]) 1)
  = [("2024-03-13", 10737418240, 0); ("2024-03-14", 13421772800, 2684354560)].
Proof. vm_compute. reflexivity. Qed.

(** ** The window and its store *)

Lemma referential_insert (db : Database.t) (i : Z) (today : string) (c x : Z) :
  In i (map Database.id (Database.locations (Database.conn db))) ->
  referential (Database.conn db) ->
  referential (Database.conn (Database.insert_daily_stat db i today c x)).
Proof.
  unfold referential. simpl. intros Hi Href.
  apply Forall_app. split.
  - rewrite Forall_forall in *. intros r Hr. apply filter_In in Hr. now apply Href.
  - constructor; [exact Hi | constructor].
Qed.

Lemma iso_days_insert (db : Database.t) (i : Z) (today : date) (c x : Z) :
  valid today = true ->
  iso_days (Database.conn db) ->
  iso_days (Database.conn (Database.insert_daily_stat db i (isoformat today) c x)).
Proof.
  unfold iso_days. simpl. intros Hv Hiso.
  apply Forall_app. split.
  - now apply iso_rows_filter.
  - constructor; [|constructor]. exists today. now split.
Qed.



Lemma update_each_keeps (fs : filesystem) (today : date) (force_update : bool)
    (values : list MonitorWindow.Location) :
  valid today = true ->
  forall d : Database.t,
    Forall (fun l => In (MonitorWindow.location_id l)
                        (map Database.id (Database.locations (Database.conn d)))) values ->
    referential (Database.conn d) ->
    iso_days (Database.conn d) ->
    exists d',
      MonitorWindow.update_each fs (isoformat today) force_update values d = Returned d' /\
      Database.locations (Database.conn d') = Database.locations (Database.conn d) /\
      referential (Database.conn d') /\
      iso_days (Database.conn d').
Proof.
  intros Hv. induction values as [|l rest IH]; intros d Hreg Href Hiso;
    cbn [MonitorWindow.update_each].
  - exists d. repeat split; assumption.
  - inversion Hreg as [|? ? Hl Hrest]; subst.
    destruct (_ && negb force_update); [now apply IH|].
    destruct (LocationSize.compute fs (MonitorWindow.path l) (MonitorWindow.kind l))
      as [size|e] eqn:Hc.
    + destruct (IH (MonitorWindow.record_reading d (MonitorWindow.location_id l)
                      (isoformat today) size))
        as (d' & Hrun & Hlocs & Href' & Hiso').
      * exact Hrest.
      * now apply referential_insert.
      * now apply iso_days_insert.
      * exists d'. split; [exact Hrun|]. repeat split; assumption.
    + apply compute_raises_only_for_disk in Hc. destruct Hc as (_ & _ & ->).
      now apply IH.
Qed.

Lemma update_today_stats_keeps (fs : filesystem) (today : date) (force_update : bool)
    (w : MonitorWindow.t) :
  valid today = true -> consistent w ->
  exists w', MonitorWindow.update_today_stats fs today force_update w = Returned w' /\
             consistent w'.
Proof.
  intros Hv (Hiso & Hreg & Href). unfold MonitorWindow.update_today_stats.
  destruct (update_each_keeps fs today force_update
              (map snd (MonitorWindow.locations w)) Hv (MonitorWindow.db w))
    as (d' & Hrun & Hlocs & Href' & Hiso').
  - rewrite Forall_map. eapply Forall_impl; [|exact Hreg].
    cbn. intros kv [Hk Hin]. now rewrite <- Hk.
  - exact Href.
  - exact Hiso.
  - rewrite Hrun. cbn [bind]. eexists. split; [reflexivity|].
    split; [exact Hiso'|]. split; [|exact Href'].
    cbn [MonitorWindow.db MonitorWindow.locations]. rewrite Hlocs. exact Hreg.
Qed.

Lemma poll_locations_keeps (fs : filesystem) (today : date) (w : MonitorWindow.t) :
  valid today = true -> consistent w ->
  exists w', MonitorWindow.poll_locations fs today w = Returned w' /\ consistent w'.
Proof.
  intros Hv Hc. unfold MonitorWindow.poll_locations, MonitorWindow.check_daily_record.
  destruct (MonitorWindow.locations w) eqn:E.
  - exists w. split; [reflexivity | exact Hc].
  - now apply update_today_stats_keeps.
Qed.

Lemma dict_set_keeps (dict : list (Z * MonitorWindow.Location)) (key : Z)
    (value : MonitorWindow.Location) (P : Z * MonitorWindow.Location -> Prop) :
  Forall P dict -> P (key, value) -> Forall P (MonitorWindow.dict_set dict key value).
Proof.
  intros Hd Hv. induction Hd as [|[k v] rest Hkv Hrest IH]; simpl.
  - constructor; [exact Hv | constructor].
  - destruct (Z.eqb_spec k key) as [->|Hne]; constructor; auto.
Qed.

(** Whatever the user and the timers do, the handler returns, and the
    window and its store keep agreeing: in particular every daily statistic
    keeps belonging to a registered location and keeps an ISO day. *)
Lemma handle_keeps_consistent (fs : filesystem) (today : date) (w : MonitorWindow.t)
    (ev : event) :
  valid today = true -> offered w ev -> consistent w ->
  exists w', handle fs today w ev = Returned w' /\ consistent w'.
Proof.
  intros Hv Hoff Hc. destruct ev as [dialog|current confirmed| | | | |]; cbn [handle].
  - unfold MonitorWindow.add_location.
    destruct dialog as [[[name path] kind]|];
      [|exists w; split; [reflexivity | exact Hc]].
    destruct (_ || _); [exists w; split; [reflexivity | exact Hc]|].
    cbn [Database.add_location].
    match goal with
    | |- context [MonitorWindow.poll_locations fs today ?w0] =>
        destruct (poll_locations_keeps fs today w0 Hv) as (w' & Hrun & Hc')
    end.
    + destruct Hc as (Hiso & Hreg & Href).
      split; [exact Hiso|]. split; cbn [MonitorWindow.db MonitorWindow.locations].
      * apply dict_set_keeps.
        -- eapply Forall_impl; [|exact Hreg]. cbn. intros kv [Hk Hkv].
           split; [exact Hk|]. rewrite map_app. apply in_or_app. now left.
        -- cbn. split; [reflexivity|]. rewrite map_app. apply in_or_app. right. now left.
      * unfold referential in *. cbn. eapply Forall_impl; [|exact Href].
        cbn. intros r Hr. rewrite map_app. apply in_or_app. now left.
    + rewrite Hrun. cbn [bind snd]. exists w'. split; [reflexivity | exact Hc'].
  - unfold MonitorWindow.remove_location.
    destruct current as [i|]; [|exists w; split; [reflexivity | exact Hc]].
    cbn [offered] in Hoff.
    destruct (MonitorWindow.dict_get (MonitorWindow.locations w) i); [|now destruct Hoff].
    destruct confirmed; [|exists w; split; [reflexivity | exact Hc]].
    eexists. split; [reflexivity|].
    destruct Hc as (Hiso & Hreg & Href).
    split; [|split]; cbn [MonitorWindow.db MonitorWindow.locations].
    + unfold iso_days. simpl. now apply iso_rows_filter.
    + unfold MonitorWindow.dict_pop. rewrite Forall_forall in *. intros kv Hkv.
      apply filter_In in Hkv. destruct Hkv as [Hin Hne].
      apply negb_true_iff, Z.eqb_neq in Hne.
      destruct (Hreg kv Hin) as [Hk Hid]. split; [exact Hk|].
      cbn. apply in_map_iff in Hid.
      destruct Hid as (row & Hid & Hrow). apply in_map_iff. exists row.
      split; [exact Hid|]. apply filter_In. split; [exact Hrow|].
      apply negb_true_iff, Z.eqb_neq. congruence.
    + now apply referential_remove.
  - now apply poll_locations_keeps.
  - now apply update_today_stats_keeps.
  - now apply update_today_stats_keeps.
  - eexists. split; [reflexivity|]. destruct Hc as (Hiso & Hreg & Href).
    unfold Database.commit_if_dirty.
    destruct (Database.dirty (MonitorWindow.db w)); repeat split; assumption.
  - eexists. split; [reflexivity|]. destruct Hc as (Hiso & Hreg & Href).
    unfold MonitorWindow.closeEvent, Database.commit_if_dirty.
    destruct (Database.dirty (MonitorWindow.db w)); repeat split; assumption.
Qed.

(** * Further properties *)

(** ** The order of texts *)

Lemma text_leb_ltb (a b : string) : String.leb a b = negb (String.ltb b a).
Proof.
  unfold String.leb, String.ltb. rewrite (String.compare_antisym b a).
  now destruct (String.compare a b).
Qed.

Lemma text_ltb_lt (a b : string) : String.ltb a b = true <-> String_as_OT.lt a b.
Proof.
  unfold String.ltb. rewrite <- String_as_OT.cmp_lt. unfold String_as_OT.cmp.
  destruct (String.compare a b); split; congruence.
Qed.

Lemma text_leb_le (a b : string) :
  String.leb a b = true <-> a = b \/ String_as_OT.lt a b.
Proof.
  unfold String.leb. rewrite <- String_as_OT.cmp_lt, <- String_as_OT.cmp_eq.
  unfold String_as_OT.cmp.
  destruct (String.compare a b); split; intros H; try tauto; try discriminate.
  destruct H; discriminate.
Qed.

Lemma text_leb_refl (a : string) : String.leb a a = true.
Proof. apply text_leb_le. now left. Qed.

Lemma text_leb_trans (a b c : string) :
  String.leb a b = true -> String.leb b c = true -> String.leb a c = true.
Proof.
  rewrite !text_leb_le. intros [->|Hab] [->|Hbc]; auto.
  right. eapply String_as_OT.lt_trans; eassumption.
Qed.

Lemma text_ltb_leb (a b : string) : String.ltb a b = true -> String.leb a b = true.
Proof. rewrite text_ltb_lt, text_leb_le. auto. Qed.

Lemma text_leb_neq_ltb (a b : string) :
  String.leb a b = true -> a <> b -> String.ltb a b = true.
Proof. rewrite text_ltb_lt, text_leb_le. intros [->|H] Hne; [contradiction | exact H]. Qed.

(** ** Insertion sort on a text key *)

Section OrderByFacts.
Context {A : Type} (key : A -> string).

Lemma insert_by_perm (x : A) (l : list A) : Permutation (insert_by key x l) (x :: l).
Proof.
  induction l as [|s rest IH]; simpl; [reflexivity|].
  destruct (String.ltb (key s) (key x)); [|reflexivity].
  rewrite IH. apply perm_swap.
Qed.

Lemma order_by_perm (l : list A) : Permutation (order_by key l) l.
Proof.
  induction l as [|x l IH]; simpl; [reflexivity|].
  rewrite insert_by_perm. now constructor.
Qed.

Lemma insert_by_ascending (x : A) (l : list A) :
  ascending key l -> ascending key (insert_by key x l).
Proof.
  unfold ascending. induction 1 as [|s rest Hrest IH Hs]; simpl.
  - constructor; constructor.
  - destruct (String.ltb (key s) (key x)) eqn:E.
    + constructor; [exact IH|].
      rewrite Forall_forall in *. intros y Hy.
      apply (Permutation_in _ (insert_by_perm x rest)) in Hy.
      destruct Hy as [<-|Hy]; [now apply text_ltb_leb | now apply Hs].
    + assert (Hx : String.leb (key x) (key s) = true)
        by (rewrite text_leb_ltb, E; reflexivity).
      constructor; [constructor; assumption|].
      constructor; [exact Hx|].
      rewrite Forall_forall in *. intros y Hy.
      eapply text_leb_trans; [exact Hx | now apply Hs].
Qed.

Lemma order_by_ascending (l : list A) : ascending key (order_by key l).
Proof.
  induction l as [|x l IH]; simpl; [constructor | now apply insert_by_ascending].
Qed.

Lemma ascending_increasing (l : list A) :
  ascending key l -> NoDup (map key l) -> increasing key l.
Proof.
  unfold ascending, increasing. induction 1 as [|s rest Hrest IH Hs]; simpl; intros Hnd.
  - constructor.
  - inversion Hnd as [|? ? Hnotin Hnd']; subst. constructor; [now apply IH|].
    rewrite Forall_forall in *. intros y Hy.
    apply text_leb_neq_ltb; [now apply Hs|].
    intros Heq. apply Hnotin. rewrite Heq. now apply in_map.
Qed.

End OrderByFacts.

Lemma insert_by_day_eq (r : Database.stat_row) (l : list Database.stat_row) :
  Database.insert_by_day r l = insert_by Database.day r l.
Proof. induction l as [|s rest IH]; simpl; [reflexivity | now rewrite IH]. Qed.

Lemma order_by_day_eq (l : list Database.stat_row) :
  Database.order_by_day l = order_by Database.day l.
Proof.
  unfold Database.order_by_day, order_by.
  induction l as [|r l IH]; cbn [fold_right]; [reflexivity|].
  now rewrite IH, insert_by_day_eq.
Qed.

Lemma insert_by_name_eq (r : Database.location_row) (l : list Database.location_row) :
  Database.insert_by_name r l = insert_by Database.name r l.
Proof. induction l as [|s rest IH]; simpl; [reflexivity | now rewrite IH]. Qed.

Lemma order_by_name_eq (l : list Database.location_row) :
  Database.order_by_name l = order_by Database.name l.
Proof.
  unfold Database.order_by_name, order_by.
  induction l as [|r l IH]; cbn [fold_right]; [reflexivity|].
  now rewrite IH, insert_by_name_eq.
Qed.

(** ** Looking up what was inserted *)

(** X1. After [insert_daily_stat] has written the row of location [i] and
    day [d], [stat_for_day] returns that very row for [i] and [d], under a
    row id no stored row has, and answers as before for every other
    location or day. *)
Theorem stat_for_day_after_insert :
  forall (db : Database.t) (i : Z) (d : string) (c x : Z) (i' : Z) (d' : string),
    Database.stat_for_day (Database.insert_daily_stat db i d c x) i' d'
    = if (i =? i') && String.eqb d d'
      then Some (Database.mkstat
                   (Database.next_rowid (Database.daily_stats_seq (Database.conn db))
                      (map Database.stat_id (Database.daily_stats (Database.conn db))))
                   i d c x)
      else Database.stat_for_day db i' d'.
Proof.
  intros db i d c x i' d'.
  change (Database.stat_for_day ?b i' d') with (hd_error (rows_for (Database.conn b) i' d')).
  rewrite rows_for_insert. now destruct ((i =? i') && String.eqb d d').
Qed.

(** ** Ids of locations *)

Lemma step_locations_seq (db : Database.t) (op : operation) :
  Database.locations_seq (Database.conn db)
  <= Database.locations_seq (Database.conn (step db op)).
Proof.
  destruct op; cbn [step]; try (simpl; lia).
  - simpl. pose proof (max_rowid_bound (Database.locations_seq (Database.conn db))
                         (map Database.id (Database.locations (Database.conn db)))) as [H _].
    unfold Database.next_rowid. lia.
  - unfold Database.commit_if_dirty. destruct (Database.dirty db); simpl; lia.
Qed.

Lemma run_locations_seq (ops : list operation) (db : Database.t) :
  Database.locations_seq (Database.conn db)
  <= Database.locations_seq (Database.conn (run db ops)).
Proof.
  revert db. induction ops as [|op ops IH]; intros db; simpl; [lia|].
  etransitivity; [apply (step_locations_seq db op) | apply IH].
Qed.

(** X2. The id [add_location] returns is greater than every id it returned
    before, whatever was added, removed, recorded or flushed in between:
    with [AUTOINCREMENT] the id of a removed location is never given to a
    later one. *)
Theorem location_ids_are_never_reused :
  forall (db : Database.t) (n p k : string) (ops : list operation) (n' p' k' : string),
    let first := Database.add_location db n p k in
    let later := Database.add_location (run (snd first) ops) n' p' k' in
    fst first < fst later.
Proof.
  intros db n p k ops n' p' k'. cbv zeta.
  pose proof (run_locations_seq ops (snd (Database.add_location db n p k))) as Hseq.
  destruct (Database.add_location db n p k) as [rowid db1] eqn:E.
  cbn [fst snd] in *.
  assert (Hrow : Database.locations_seq (Database.conn db1) = rowid).
  { unfold Database.add_location in E. injection E as <- <-. reflexivity. }
  pose proof (max_rowid_bound (Database.locations_seq (Database.conn (run db1 ops)))
                (map Database.id (Database.locations (Database.conn (run db1 ops)))))
    as [H _].
  unfold Database.add_location, Database.next_rowid. cbn [fst]. lia.
Qed.

(** ** What is durable *)

Lemma synced_step (db : Database.t) (op : operation) : synced db -> synced (step db op).
Proof.
  unfold synced. destruct op; cbn [step]; try (simpl; discriminate).
  unfold Database.commit_if_dirty. destruct (Database.dirty db) eqn:E; simpl; auto.
Qed.

Lemma synced_run (ops : list operation) (db : Database.t) : synced db -> synced (run db ops).
Proof.
  revert db. induction ops as [|op ops IH]; intros db H; simpl; [exact H|].
  apply IH, synced_step, H.
Qed.

(** X3. Whatever was done to a store since it was opened, one
    [commit_if_dirty] leaves on disk exactly the tables the connection
    sees, and changes none of them; closing the window does the same. *)
Theorem flush_makes_everything_durable :
  forall (file : Database.tables) (ops : list operation)
         (locs : list (Z * MonitorWindow.Location)),
    let db := run (Database.init file) ops in
    Database.disk (Database.commit_if_dirty db) = Database.conn db /\
    Database.conn (Database.commit_if_dirty db) = Database.conn db /\
    Database.disk (MonitorWindow.db (MonitorWindow.closeEvent (MonitorWindow.mkwindow db locs)))
    = Database.conn db.
Proof.
  intros file ops locs. cbv zeta.
  assert (H : synced (run (Database.init file) ops)).
  { apply synced_run. intros _. reflexivity. }
  unfold MonitorWindow.closeEvent, Database.commit_if_dirty. cbn [MonitorWindow.db].
  destruct (Database.dirty (run (Database.init file) ops)) eqn:E; simpl; auto.
Qed.

(** X4. A sequence of additions, removals and recordings without a flush
    writes nothing to disk and commits nothing: what is durable is what the
    last flush left. *)
Theorem nothing_is_written_between_flushes :
  forall (db : Database.t) (ops : list operation),
    forallb is_mutation ops = true ->
    Database.disk (run db ops) = Database.disk db /\
    Database.commits (run db ops) = Database.commits db.
Proof.
  intros db ops. revert db. induction ops as [|op ops IH]; intros db H; simpl.
  - split; reflexivity.
  - simpl in H. apply andb_true_iff in H. destruct H as [Hop Hops].
    destruct (IH (step db op) Hops) as [Hd Hc].
    rewrite Hd, Hc. split; [now apply step_disk | now apply step_commits].
Qed.

Lemma nothing_is_written_between_flushes_witness :
  let db := Database.init sample_tables in
  let ops := [OpAdd "Disk C" "/" "Disk"; OpRecord 1 "2024-03-15" 15; OpRemove 1] in
  forallb is_mutation ops = true /\
  Database.disk (run db ops) = Database.disk db /\
  Database.commits (run db ops) = Database.commits db.
Proof.
  cbv zeta. split; [reflexivity|].
  apply (nothing_is_written_between_flushes (Database.init sample_tables)
           [OpAdd "Disk C" "/" "Disk"; OpRecord 1 "2024-03-15" 15; OpRemove 1]).
  reflexivity.
Defined.

(** ** The two ordered queries *)

Lemma unique_days_nodup (c : Database.tables) (i : Z) :
  unique_days c ->
  NoDup (map Database.day
           (filter (fun r => Database.location_id r =? i) (Database.daily_stats c))).
Proof.
  intros Hu.
  assert (H : forall d,
             le (List.length
                   (filter (fun r => String.eqb (Database.day r) d)
                      (filter (fun r => Database.location_id r =? i)
                              (Database.daily_stats c)))) 1).
  { intros d. rewrite filter_filter. apply (Hu i d). }
  induction (filter (fun r => Database.location_id r =? i) (Database.daily_stats c))
    as [|r l IH]; simpl; [constructor|].
  constructor.
  - intros Hin. apply in_map_iff in Hin. destruct Hin as (q & Hq & Hin).
    specialize (H (Database.day r)). simpl in H. rewrite String.eqb_refl in H. simpl in H.
    assert (Hq' : In q (filter (fun r0 => String.eqb (Database.day r0) (Database.day r)) l)).
    { apply filter_In. split; [exact Hin|]. now apply String.eqb_eq. }
    destruct (filter _ l); [destruct Hq' | simpl in H; lia].
  - apply IH. intros d. specialize (H d). simpl in H.
    destruct (String.eqb (Database.day r) d); simpl in H; lia.
Qed.

Lemma sample_tables_unique_days : unique_days sample_tables.
Proof.
  intros i d. unfold rows_for, sample_tables.
  cbn [filter Database.daily_stats Database.location_id Database.day].
  destruct (1 =? i); cbn [andb List.length]; [|lia].
  destruct (String.eqb "2024-03-13" d) eqn:E1;
    destruct (String.eqb "2024-03-14" d) eqn:E2; cbn [List.length]; try lia.
  apply String.eqb_eq in E1, E2. subst d. discriminate.
Qed.

(** X5. [stats_for_location] returns every row of the location and no
    other row, each as often as it is stored, in ascending order of the
    day text; when the table holds one row per location and day, the days
    of the series are strictly increasing. *)
Theorem series_is_complete_and_sorted :
  forall (db : Database.t) (i : Z),
    Permutation (Database.stats_for_location db i)
                (filter (fun r => Database.location_id r =? i)
                        (Database.daily_stats (Database.conn db))) /\
    ascending Database.day (Database.stats_for_location db i) /\
    (unique_days (Database.conn db) ->
     increasing Database.day (Database.stats_for_location db i)).
Proof.
  intros db i. unfold Database.stats_for_location. rewrite order_by_day_eq.
  split; [apply order_by_perm|]. split; [apply order_by_ascending|].
  intros Hu. apply ascending_increasing; [apply order_by_ascending|].
  eapply Permutation_NoDup; [|apply (unique_days_nodup _ i Hu)].
  apply Permutation_map, Permutation_sym, order_by_perm.
Qed.

Lemma series_is_complete_and_sorted_witness :
  let db := Database.init sample_tables in
  unique_days (Database.conn db) /\
  Permutation (Database.stats_for_location db 1)
              (filter (fun r => Database.location_id r =? 1)
                      (Database.daily_stats (Database.conn db))) /\
  ascending Database.day (Database.stats_for_location db 1) /\
  increasing Database.day (Database.stats_for_location db 1).
Proof.
  cbv zeta.
  destruct (series_is_complete_and_sorted (Database.init sample_tables) 1)
    as (Hperm & Hasc & Hinc).
  split; [exact sample_tables_unique_days|].
  split; [exact Hperm|]. split; [exact Hasc|].
  apply Hinc. exact sample_tables_unique_days.
Defined.

(** X7. [list_locations] returns the registered locations, each once and
    no other, in ascending order of the name, whatever order they were
    added in. *)
Theorem locations_are_listed_by_name :
  forall db : Database.t,
    Permutation (Database.list_locations db) (Database.locations (Database.conn db)) /\
    ascending Database.name (Database.list_locations db).
Proof.
  intros db. unfold Database.list_locations. rewrite order_by_name_eq.
  split; [apply order_by_perm | apply order_by_ascending].
Qed.

Lemma latest_greatest (rows : list Database.stat_row) :
  match Database.latest rows with
  | None => rows = []
  | Some p =>
      In p rows /\
      Forall (fun q => String.leb (Database.day q) (Database.day p) = true) rows
  end.
Proof.
  induction rows as [|r rest IH]; cbn [Database.latest]; [reflexivity|].
  destruct (Database.latest rest) as [p|].
  - destruct IH as [Hin Hmax].
    destruct (String.ltb (Database.day r) (Database.day p)) eqn:E.
    + split; [now right|]. constructor; [now apply text_ltb_leb | exact Hmax].
    + assert (Hp : String.leb (Database.day p) (Database.day r) = true)
        by (rewrite text_leb_ltb, E; reflexivity).
      split; [now left|]. constructor; [apply text_leb_refl|].
      eapply Forall_impl; [|exact Hmax]. cbn. intros q Hq.
      eapply text_leb_trans; eassumption.
  - subst rest. split; [now left|]. constructor; [apply text_leb_refl | constructor].
Qed.

(** X6. [last_stat_for_location] returns a stored row of the location
    whose day text no row of the location exceeds, and returns nothing
    only when the location has no row at all. *)
Theorem last_stat_for_location_is_latest :
  forall (db : Database.t) (i : Z),
    let mine := filter (fun r => Database.location_id r =? i)
                       (Database.daily_stats (Database.conn db)) in
    match Database.last_stat_for_location db i with
    | None => mine = []
    | Some p =>
        In p (Database.daily_stats (Database.conn db)) /\
        Database.location_id p = i /\
        Forall (fun r => String.leb (Database.day r) (Database.day p) = true) mine
    end.
Proof.
  intros db i. cbv zeta. unfold Database.last_stat_for_location.
  pose proof (latest_greatest
                (filter (fun r => Database.location_id r =? i)
                        (Database.daily_stats (Database.conn db)))) as H.
  destruct (Database.latest _) as [p|].
  - destruct H as [Hin Hmax]. pose proof Hin as Hin'.
    apply filter_In in Hin'. destruct Hin' as [Hin' Hp].
    apply Z.eqb_eq in Hp. split; [exact Hin'|]. split; [exact Hp | exact Hmax].
  - exact H.
Qed.

(** ** The recording loop *)

Lemma last_stat_before_day_insert_any (db : Database.t) (j i : Z) (today : string) (c x : Z) :
  Database.last_stat_before_day (Database.insert_daily_stat db j today c x) i today
  = Database.last_stat_before_day db i today.
Proof.
  unfold Database.last_stat_before_day. f_equal. simpl.
  rewrite filter_app, filter_filter. simpl.
  rewrite text_ltb_irrefl, andb_false_r. simpl. rewrite app_nil_r.
  apply filter_ext. intros r.
  destruct (Database.location_id r =? i); simpl.
  - destruct (String.eqb_spec (Database.day r) today) as [->|Hne].
    + rewrite text_ltb_irrefl. now destruct (negb _).
    + now rewrite andb_false_r.
  - now rewrite !andb_false_r.
Qed.

Lemma rows_for_record (d : Database.t) (i : Z) (today : string) (size : Z) (i' : Z)
    (d' : string) :
  rows_for (Database.conn (MonitorWindow.record_reading d i today size)) i' d'
  = if (i =? i') && String.eqb today d'
    then [Database.mkstat
            (Database.next_rowid (Database.daily_stats_seq (Database.conn d))
               (map Database.stat_id (Database.daily_stats (Database.conn d))))
            i today size (delta_from (Database.last_stat_before_day d i today) size)]
    else rows_for (Database.conn d) i' d'.
Proof. unfold MonitorWindow.record_reading. now rewrite rows_for_insert. Qed.

(** What one pass of the loop leaves alone. *)
Lemma update_each_frame (fs : filesystem) (today : string) (force_update : bool)
    (values : list MonitorWindow.Location) :
  forall d : Database.t,
  exists d',
    MonitorWindow.update_each fs today force_update values d = Returned d' /\
    Database.locations (Database.conn d') = Database.locations (Database.conn d) /\
    Database.locations_seq (Database.conn d') = Database.locations_seq (Database.conn d) /\
    Database.disk d' = Database.disk d /\
    Database.commits d' = Database.commits d /\
    (forall i day,
        day <> today \/ ~ In i (map MonitorWindow.location_id values) ->
        rows_for (Database.conn d') i day = rows_for (Database.conn d) i day) /\
    (forall i, Database.last_stat_before_day d' i today
               = Database.last_stat_before_day d i today) /\
    (forall i, rows_for (Database.conn d) i today <> [] ->
               rows_for (Database.conn d') i today <> [] /\
               (force_update = false ->
                rows_for (Database.conn d') i today = rows_for (Database.conn d) i today)).
Proof.
  induction values as [|l rest IH]; intros d; cbn [MonitorWindow.update_each].
  - exists d. repeat split; auto.
  - assert (Hskip : exists d',
               MonitorWindow.update_each fs today force_update rest d = Returned d' /\
               Database.locations (Database.conn d') = Database.locations (Database.conn d) /\
               Database.locations_seq (Database.conn d')
               = Database.locations_seq (Database.conn d) /\
               Database.disk d' = Database.disk d /\
               Database.commits d' = Database.commits d /\
               (forall i day,
                   day <> today \/ ~ In i (map MonitorWindow.location_id (l :: rest)) ->
                   rows_for (Database.conn d') i day = rows_for (Database.conn d) i day) /\
               (forall i, Database.last_stat_before_day d' i today
                          = Database.last_stat_before_day d i today) /\
               (forall i, rows_for (Database.conn d) i today <> [] ->
                          rows_for (Database.conn d') i today <> [] /\
                          (force_update = false ->
                           rows_for (Database.conn d') i today
                           = rows_for (Database.conn d) i today))).
    { destruct (IH d) as (d' & Hrun & Hl & Hs & Hd & Hc & Hf & Hb & Hk).
      exists d'. repeat split; auto; try (now apply Hk).
      intros i day [Hday|Hi]; apply Hf; [now left|].
      right. intros Hin. apply Hi. now right. }
    destruct (_ && negb force_update) eqn:Eskip; [exact Hskip|].
    destruct (LocationSize.compute fs (MonitorWindow.path l) (MonitorWindow.kind l))
      as [size|e] eqn:Hc.
    + set (d1 := MonitorWindow.record_reading d (MonitorWindow.location_id l) today size).
      destruct (IH d1) as (d' & Hrun & Hl & Hs & Hd & Hcm & Hf & Hb & Hk).
      exists d'. split; [exact Hrun|].
      split; [now rewrite Hl|]. split; [now rewrite Hs|].
      split; [now rewrite Hd|]. split; [now rewrite Hcm|].
      split; [|split].
      * intros i day Hcase. rewrite Hf.
        -- subst d1. rewrite rows_for_record.
           destruct (Z.eqb_spec (MonitorWindow.location_id l) i) as [Ei|Ni];
             [|reflexivity].
           destruct (String.eqb_spec today day) as [Et|Nt]; [|reflexivity].
           exfalso. destruct Hcase as [Hday|Hi]; [now apply Hday|].
           apply Hi. now left.
        -- destruct Hcase as [Hday|Hi]; [now left|].
           right. intros Hin. apply Hi. now right.
      * intros i. rewrite Hb. subst d1. unfold MonitorWindow.record_reading.
        apply last_stat_before_day_insert_any.
      * intros i Hne.
        assert (Hne1 : rows_for (Database.conn d1) i today <> []).
        { subst d1. rewrite rows_for_record.
          destruct ((MonitorWindow.location_id l =? i) && String.eqb today today);
            [discriminate | exact Hne]. }
        destruct (Hk i Hne1) as [Hne' Hkeep]. split; [exact Hne'|].
        intros Hforce. rewrite (Hkeep Hforce). subst d1. rewrite rows_for_record.
        destruct (Z.eqb_spec (MonitorWindow.location_id l) i) as [Ei|Ni];
          [|reflexivity].
        rewrite String.eqb_refl. cbn [andb].
        exfalso. subst force_update. rewrite andb_true_r in Eskip.
        unfold Database.stat_for_day in Eskip. fold (rows_for (Database.conn d)
          (MonitorWindow.location_id l) today) in Eskip.
        rewrite Ei in Eskip.
        destruct (rows_for (Database.conn d) i today); [now apply Hne | discriminate].
    + apply compute_raises_only_for_disk in Hc. destruct Hc as (_ & _ & ->).
      exact Hskip.
Qed.



Lemma dict_get_none_not_in (dict : list (Z * MonitorWindow.Location)) (i : Z) :
  MonitorWindow.dict_get dict i = None -> ~ In i (map fst dict).
Proof.
  induction dict as [|[k v] rest IH]; simpl; [tauto|].
  destruct (Z.eqb_spec k i) as [E|N]; [discriminate|].
  intros Hget [Hk|Hin]; [now apply N | now apply IH].
Qed.








(** The sample window agrees with its store. *)
Lemma sample_window_consistent : consistent sample_window.
Proof.
  split; [|split].
  - constructor; [exists (mkdate 2024 3 13); split; reflexivity|].
    constructor; [exists (mkdate 2024 3 14); split; reflexivity | constructor].
  - constructor; [split; [reflexivity | now left] | constructor].
  - constructor; [now left|]. constructor; [now left | constructor].
Qed.

Lemma sample_window_keyed : keyed sample_window.
Proof.
  split.
  - constructor; [intros [] | constructor].
  - constructor; [reflexivity | constructor].
Qed.

(** ** The timers *)



(** X12. The daily check never replaces a row of today: a row the store
    holds for a location and today is still the one [stat_for_day] returns
    after the check. *)



(** X11. When the pass of [update_today_stats] over the locations, forced
    or not, has run to its end, the window's dictionary, the registered
    locations, what is on disk, the rows of every other day and the baseline
    of today are what they were: it writes rows of today only. *)
Theorem update_touches_only_todays_rows :
  forall (fs : filesystem) (today : PyDate.date) (force_update : bool)
         (w w' : MonitorWindow.t) (i : Z) (day : string),
    MonitorWindow.update_today_stats fs today force_update w = Returned w' ->
    day <> PyDate.isoformat today ->
    MonitorWindow.locations w' = MonitorWindow.locations w /\
    Database.locations (Database.conn (MonitorWindow.db w'))
    = Database.locations (Database.conn (MonitorWindow.db w)) /\
    Database.disk (MonitorWindow.db w') = Database.disk (MonitorWindow.db w) /\
    rows_for (Database.conn (MonitorWindow.db w')) i day
    = rows_for (Database.conn (MonitorWindow.db w)) i day /\
    Database.last_stat_before_day (MonitorWindow.db w') i (PyDate.isoformat today)
    = Database.last_stat_before_day (MonitorWindow.db w) i (PyDate.isoformat today).
Proof.
  intros fs today force_update w w' i day Hrun Hday.
  unfold MonitorWindow.update_today_stats in Hrun.
  destruct (update_each_frame fs (PyDate.isoformat today) force_update
              (map snd (MonitorWindow.locations w)) (MonitorWindow.db w))
    as (d' & Hrun' & Hl & _ & Hd & _ & Hf & Hb & _).
  rewrite Hrun' in Hrun. cbn [bind] in Hrun. injection Hrun as <-.
  cbn [MonitorWindow.db MonitorWindow.locations].
  repeat split; auto.
Qed.

Lemma update_touches_only_todays_rows_witness :
  let today := mkdate 2024 3 14 in
  "2024-03-13" <> isoformat today /\
  exists w',
    MonitorWindow.update_today_stats sample_fs today true sample_window = Returned w' /\
    MonitorWindow.locations w' = MonitorWindow.locations sample_window /\
    Database.locations (Database.conn (MonitorWindow.db w'))
    = Database.locations (Database.conn (MonitorWindow.db sample_window)) /\
    Database.disk (MonitorWindow.db w') = Database.disk (MonitorWindow.db sample_window) /\
    rows_for (Database.conn (MonitorWindow.db w')) 1 "2024-03-13"
    = rows_for (Database.conn (MonitorWindow.db sample_window)) 1 "2024-03-13" /\
    Database.last_stat_before_day (MonitorWindow.db w') 1 (isoformat today)
    = Database.last_stat_before_day (MonitorWindow.db sample_window) 1 (isoformat today).
Proof.
  cbv zeta. split; [vm_compute; discriminate|].
  eexists. split; [vm_compute; reflexivity|].
  apply (update_touches_only_todays_rows sample_fs (mkdate 2024 3 14) true sample_window
           _ 1 "2024-03-13").
  - vm_compute. reflexivity.
  - vm_compute. discriminate.
Defined.



(** ** Adding a location *)

(** X15. When the dialog gives a name and a path that are not empty and
    the probe of the new location answers, [add_location] of the window
    obtains a fresh id, the location is registered under it in the store and
    in the dictionary, and the row of today the poll records for it has the
    size read and delta 0: a new location has no earlier reading. *)



(** ** Runs of the window *)

Lemma dict_set_keys (dict : list (Z * MonitorWindow.Location)) (key : Z)
    (value : MonitorWindow.Location) (k : Z) :
  In k (map fst (MonitorWindow.dict_set dict key value)) <-> k = key \/ In k (map fst dict).
Proof.
  induction dict as [|[k0 v0] rest IH]; simpl.
  - intuition.
  - destruct (Z.eqb_spec k0 key) as [->|N]; simpl; [intuition|].
    rewrite IH. intuition.
Qed.

Lemma dict_set_nodup (dict : list (Z * MonitorWindow.Location)) (key : Z)
    (value : MonitorWindow.Location) :
  NoDup (map fst dict) -> NoDup (map fst (MonitorWindow.dict_set dict key value)).
Proof.
  induction dict as [|[k0 v0] rest IH]; simpl; intros Hnd.
  - constructor; [intros [] | constructor].
  - inversion Hnd as [|? ? Hnotin Hnd']; subst.
    destruct (Z.eqb_spec k0 key) as [->|N]; simpl.
    + constructor; assumption.
    + constructor; [|now apply IH].
      rewrite dict_set_keys. intros [E|Hin]; [now apply N | now apply Hnotin].
Qed.

Lemma dict_pop_nodup (dict : list (Z * MonitorWindow.Location)) (key : Z) :
  NoDup (map fst dict) -> NoDup (map fst (MonitorWindow.dict_pop dict key)).
Proof.
  unfold MonitorWindow.dict_pop.
  induction dict as [|[k0 v0] rest IH]; simpl; intros Hnd; [constructor|].
  inversion Hnd as [|? ? Hnotin Hnd']; subst.
  destruct (negb (k0 =? key)); simpl; [|now apply IH].
  constructor; [|now apply IH].
  intros Hin. apply Hnotin. apply in_map_iff in Hin.
  destruct Hin as (kv & Hk & Hin). apply filter_In in Hin.
  apply in_map_iff. exists kv. tauto.
Qed.

Lemma update_today_stats_locations (fs : filesystem) (today : PyDate.date)
    (force_update : bool) (w w' : MonitorWindow.t) :
  MonitorWindow.update_today_stats fs today force_update w = Returned w' ->
  MonitorWindow.locations w' = MonitorWindow.locations w /\
  Database.locations (Database.conn (MonitorWindow.db w'))
  = Database.locations (Database.conn (MonitorWindow.db w)) /\
  Database.locations_seq (Database.conn (MonitorWindow.db w'))
  = Database.locations_seq (Database.conn (MonitorWindow.db w)).
Proof.
  unfold MonitorWindow.update_today_stats.
  destruct (update_each_frame fs (PyDate.isoformat today) force_update
              (map snd (MonitorWindow.locations w)) (MonitorWindow.db w))
    as (d' & Hrun & Hl & Hs & _).
  rewrite Hrun. cbn [bind]. intros [= <-]. cbn. auto.
Qed.

Lemma poll_locations_locations (fs : filesystem) (today : PyDate.date)
    (w w' : MonitorWindow.t) :
  MonitorWindow.poll_locations fs today w = Returned w' ->
  MonitorWindow.locations w' = MonitorWindow.locations w /\
  Database.locations (Database.conn (MonitorWindow.db w'))
  = Database.locations (Database.conn (MonitorWindow.db w)) /\
  Database.locations_seq (Database.conn (MonitorWindow.db w'))
  = Database.locations_seq (Database.conn (MonitorWindow.db w)).
Proof.
  unfold MonitorWindow.poll_locations, MonitorWindow.check_daily_record.
  destruct (MonitorWindow.locations w) eqn:E.
  - intros [= <-]. rewrite E. auto.
  - rewrite <- E. apply update_today_stats_locations.
Qed.

Lemma handle_keeps_keyed (fs : filesystem) (today : PyDate.date) (w w' : MonitorWindow.t)
    (ev : event) :
  keyed w -> handle fs today w ev = Returned w' -> keyed w'.
Proof.
  intros [Hnd Hkey] Hrun. destruct ev as [dialog|current confirmed| | | | |];
    cbn [handle] in Hrun.
  - unfold MonitorWindow.add_location in Hrun.
    destruct dialog as [[[name path] kind]|]; [|injection Hrun as <-; now split].
    destruct (_ || _); [injection Hrun as <-; now split|].
    cbn [Database.add_location] in Hrun.
    match type of Hrun with
    | context [MonitorWindow.poll_locations fs today ?w0] =>
        destruct (MonitorWindow.poll_locations fs today w0) as [w1|e] eqn:Hpoll;
          [|discriminate Hrun]
    end.
    cbn [bind snd] in Hrun. injection Hrun as <-.
    apply poll_locations_locations in Hpoll. destruct Hpoll as (Hl & _).
    unfold keyed. rewrite Hl. cbn [MonitorWindow.locations]. split.
    + now apply dict_set_nodup.
    + apply dict_set_keeps; [exact Hkey | reflexivity].
  - unfold MonitorWindow.remove_location in Hrun.
    destruct current as [i|]; [|injection Hrun as <-; now split].
    destruct (MonitorWindow.dict_get (MonitorWindow.locations w) i); [|discriminate].
    destruct confirmed; injection Hrun as <-; [|now split].
    split; cbn [MonitorWindow.locations].
    + now apply dict_pop_nodup.
    + unfold MonitorWindow.dict_pop. rewrite Forall_forall in *. intros kv Hkv.
      apply filter_In in Hkv. now apply Hkey.
  - apply poll_locations_locations in Hrun. destruct Hrun as (Hl & _).
    unfold keyed. rewrite Hl. now split.
  - apply update_today_stats_locations in Hrun. destruct Hrun as (Hl & _).
    unfold keyed. rewrite Hl. now split.
  - apply update_today_stats_locations in Hrun. destruct Hrun as (Hl & _).
    unfold keyed. rewrite Hl. now split.
  - injection Hrun as <-. now split.
  - injection Hrun as <-. now split.
Qed.


Lemma handle_returned_offered (fs : filesystem) (today : PyDate.date)
    (w w' : MonitorWindow.t) (ev : event) :
  handle fs today w ev = Returned w' -> offered w ev.
Proof.
  destruct ev as [dialog|current confirmed| | | | |]; cbn [handle offered]; auto.
  destruct current as [i|]; [|auto].
  unfold MonitorWindow.remove_location.
  destruct (MonitorWindow.dict_get (MonitorWindow.locations w) i); discriminate.
Qed.

(** X9. From a window that agrees with its store and whose dictionary is
    keyed by id, a run of additions, removals, polls, daily checks, session
    updates, flushes and the closing, on dates that are dates, in which every
    handler ran to the end of its changes of the store and of the
    dictionary, leaves a window that agrees with its store and is keyed by
    id: no such handler leaves a daily statistic without its location, a
    tracked location the store does not hold, or a day that is not an ISO
    date.  The redrawing of the chart that ends some handlers changes
    neither and is not part of a run. *)
Theorem handlers_keep_window_and_store_in_step :
  forall (ticks : list (filesystem * PyDate.date * event)) (w w' : MonitorWindow.t),
    consistent w -> keyed w ->
    Forall (fun tick => PyDate.valid (snd (fst tick)) = true) ticks ->
    run_events w ticks = Returned w' ->
    consistent w' /\ keyed w'.
Proof.
  induction ticks as [|[[fs today] ev] rest IH]; intros w w' Hc Hk Hv Hrun;
    cbn [run_events] in Hrun.
  - injection Hrun as <-. now split.
  - inversion Hv as [|? ? Hv1 Hvrest]; subst. cbn [fst snd] in Hv1.
    destruct (handle fs today w ev) as [w1|e] eqn:Hh; cbn [bind] in Hrun; [|discriminate].
    pose proof (handle_returned_offered fs today w w1 ev Hh) as Hoff.
    destruct (handle_keeps_consistent fs today w ev Hv1 Hoff Hc) as (w2 & Hrun2 & Hc2).
    rewrite Hh in Hrun2. injection Hrun2 as <-.
    apply (IH w1 w'); [exact Hc2 | | exact Hvrest | exact Hrun].
    now apply (handle_keeps_keyed fs today w w1 ev).
Qed.

Lemma handlers_keep_window_and_store_in_step_witness :
  let today := mkdate 2024 3 15 in
  let ticks := [(sample_fs, today, EvSessionUpdate);
                (sample_fs, today, EvAdd (Some ("Copy", "/data", "Folder")));
                (sample_fs, today, EvRemove (Some 1) true);
                (sample_fs, today, EvClose)] in
  consistent sample_window /\ keyed sample_window /\
  Forall (fun tick => PyDate.valid (snd (fst tick)) = true) ticks /\
  exists w', run_events sample_window ticks = Returned w' /\ consistent w' /\ keyed w'.
Proof.
  cbv zeta.
  assert (Hv : Forall (fun tick => PyDate.valid (snd (fst tick)) = true)
                 [(sample_fs, mkdate 2024 3 15, EvSessionUpdate);
                  (sample_fs, mkdate 2024 3 15, EvAdd (Some ("Copy", "/data", "Folder")));
                  (sample_fs, mkdate 2024 3 15, EvRemove (Some 1) true);
                  (sample_fs, mkdate 2024 3 15, EvClose)]).
  { repeat constructor. }
  split; [exact sample_window_consistent|]. split; [exact sample_window_keyed|].
  split; [exact Hv|].
  eexists. split; [vm_compute; reflexivity|].
  apply (handlers_keep_window_and_store_in_step
           [(sample_fs, mkdate 2024 3 15, EvSessionUpdate);
            (sample_fs, mkdate 2024 3 15, EvAdd (Some ("Copy", "/data", "Folder")));
            (sample_fs, mkdate 2024 3 15, EvRemove (Some 1) true);
            (sample_fs, mkdate 2024 3 15, EvClose)] sample_window).
  - exact sample_window_consistent.
  - exact sample_window_keyed.
  - exact Hv.
  - vm_compute. reflexivity.
Defined.


(** X10. Once the user has removed a location and confirmed, no later
    event brings it back: after any further run the store holds no location
    and no daily statistic under its id, and the dictionary has no entry
    for it, also when locations are added afterwards. *)



(** ** Slicing a series by month and by year *)

Lemma days_before_month_succ (y m : Z) :
  1 <= m <= 11 ->
  days_before_month y (m + 1) = days_before_month y m + days_in_month y m.
Proof.
  intros Hm. unfold days_before_month, days_in_month.
  month_cases m; try lia; destruct (is_leap y); reflexivity.
Qed.

Lemma fromordinal_toordinal (d : date) :
  valid d = true -> fromordinal (toordinal d) = d.
Proof.
  intros Hv. pose proof (toordinal_bounds d Hv) as Hb.
  destruct (ord2ymd_correct (toordinal d) Hb) as [Hv' Ho].
  now apply toordinal_inj.
Qed.

Lemma valid_first_of_month (d : date) :
  valid d = true -> valid (mkdate (year d) (month d) 1) = true.
Proof.
  unfold valid. cbn [year month day]. rewrite !valid_fields_iff. lia.
Qed.

Lemma valid_last_of_month (d : date) :
  valid d = true ->
  valid (mkdate (year d) (month d) (days_in_month (year d) (month d))) = true.
Proof.
  unfold valid. cbn [year month day]. rewrite !valid_fields_iff. lia.
Qed.

Lemma select_rows_returns (start end_ : date) (stats : list Database.stat_row) :
  forall filtered rows,
    MonitorWindow.select_rows start end_ stats filtered = Returned rows ->
    rows = filtered ++ filter (within start end_) stats /\
    Forall (fun r => exists d, strptime (Database.day r) = Returned d) stats.
Proof.
  induction stats as [|r rest IH]; intros filtered rows; cbn [MonitorWindow.select_rows filter].
  - intros [= <-]. now rewrite app_nil_r.
  - unfold within at 1.
    destruct (strptime (Database.day r)) as [d|e] eqn:E; cbn [bind]; [|discriminate].
    intros Hrun. apply IH in Hrun. destruct Hrun as [-> Hall].
    split; [|constructor; [now exists d | exact Hall]].
    destruct (PyDate.leb start d && PyDate.leb d end_); [now rewrite <- app_assoc | reflexivity].
Qed.

Lemma select_rows_raises (start end_ : date) (stats : list Database.stat_row)
    (r : Database.stat_row) (e : exn) :
  In r stats -> strptime (Database.day r) = Raised e ->
  forall filtered rows, MonitorWindow.select_rows start end_ stats filtered <> Returned rows.
Proof.
  intros Hin He filtered rows Hrun. apply select_rows_returns in Hrun.
  destruct Hrun as [_ Hall]. rewrite Forall_forall in Hall.
  destruct (Hall r Hin) as (d & Hd). congruence.
Qed.

Lemma text_mesic_is_not_vse : String.eqb "Měsíc" "Vše" = false.
Proof. reflexivity. Qed.

Lemma text_mesic_is_not_tyden : String.eqb "Měsíc" "Týden" = false.
Proof. reflexivity. Qed.

Lemma last_day_of_month (d : date) :
  valid d = true -> month d <> 12 ->
  (next_month <- PyDate.new (year d) (month d + 1) 1 ;; sub_days next_month 1)
  = Returned (mkdate (year d) (month d) (days_in_month (year d) (month d))).
Proof.
  intros Hv H12. pose proof Hv as Hv'. unfold valid in Hv'. apply valid_fields_iff in Hv'.
  destruct Hv' as (Hy & Hm & Hd).
  assert (Hnext : valid_fields (year d) (month d + 1) 1 = true).
  { apply valid_fields_iff. split; [lia|]. split; [lia|].
    unfold days_in_month. pose proof Hm as Hm'.
    assert (Hm1 : 1 <= month d <= 11) by lia. clear Hd.
    generalize dependent (month d). intros m _ _ _ Hm1.
    month_cases m; try lia; destruct (is_leap (year d)); cbn; lia. }
  unfold PyDate.new. rewrite Hnext. cbn [bind]. unfold sub_days, add_days.
  pose proof (valid_last_of_month d Hv) as Hlast.
  pose proof (toordinal_bounds _ Hlast) as Hb.
  assert (Ho : toordinal (mkdate (year d) (month d + 1) 1) + - (1)
               = toordinal (mkdate (year d) (month d)
                              (days_in_month (year d) (month d)))).
  { unfold toordinal, ymd2ord. cbn [year month day].
    rewrite days_before_month_succ by lia. lia. }
  rewrite Ho.
  replace ((0 <? _) && (_ <=? MAXORDINAL)) with true
    by (symmetry; apply andb_true_iff; split; [apply Z.ltb_lt | apply Z.leb_le]; lia).
  now rewrite fromordinal_toordinal.
Qed.

Lemma within_month (sel d : date) :
  valid sel = true -> valid d = true ->
  PyDate.leb (mkdate (year sel) (month sel) 1) d
  && PyDate.leb d (mkdate (year sel) (month sel) (days_in_month (year sel) (month sel)))
  = (year d =? year sel) && (month d =? month sel).
Proof.
  intros Hs Hd. unfold valid in Hd. apply valid_fields_iff in Hd.
  destruct Hd as (_ & _ & Hday).
  unfold PyDate.leb, PyDate.compare. cbn [year month day].
  rewrite (Z.compare_antisym (year d) (year sel)).
  destruct (Z.compare_spec (year d) (year sel)) as [Ey|Ly|Ly]; cbn [CompOpp].
  - rewrite (proj2 (Z.eqb_eq _ _) Ey).
    rewrite (Z.compare_antisym (month d) (month sel)).
    destruct (Z.compare_spec (month d) (month sel)) as [Em|Lm|Lm]; cbn [CompOpp].
    + rewrite (proj2 (Z.eqb_eq _ _) Em). rewrite Ey, Em in Hday.
      destruct (Z.compare_spec 1 (day d)); try lia;
        destruct (Z.compare_spec (day d) (days_in_month (year sel) (month sel)));
        try lia; reflexivity.
    + rewrite (proj2 (Z.eqb_neq _ _)) by lia. reflexivity.
    + rewrite (proj2 (Z.eqb_neq _ _)) by lia. reflexivity.
  - rewrite (proj2 (Z.eqb_neq _ _)) by lia. reflexivity.
  - rewrite (proj2 (Z.eqb_neq _ _)) by lia. reflexivity.
Qed.

Lemma within_year (sel d : date) :
  valid d = true ->
  PyDate.leb (mkdate (year sel) 1 1) d && PyDate.leb d (mkdate (year sel) 12 31)
  = (year d =? year sel).
Proof.
  intros Hd. unfold valid in Hd. apply valid_fields_iff in Hd.
  destruct Hd as (_ & Hm & Hday).
  pose proof (days_in_month_le_31 (year d) (month d) Hm) as H31.
  unfold PyDate.leb, PyDate.compare. cbn [year month day].
  rewrite (Z.compare_antisym (year d) (year sel)).
  destruct (Z.compare_spec (year d) (year sel)) as [Ey|Ly|Ly]; cbn [CompOpp].
  - rewrite (proj2 (Z.eqb_eq _ _) Ey).
    destruct (Z.compare_spec 1 (month d)); try lia;
      destruct (Z.compare_spec (month d) 12); try lia;
      repeat match goal with
        | |- context [?a ?= ?b] => destruct (Z.compare_spec a b); try lia
        end; reflexivity.
  - rewrite (proj2 (Z.eqb_neq _ _)) by lia. reflexivity.
  - rewrite (proj2 (Z.eqb_neq _ _)) by lia. reflexivity.
Qed.

Lemma filter_within_iso (start end_ : date) (f : Database.stat_row -> bool)
    (series : list Database.stat_row) :
  iso_rows series ->
  (forall r d, valid d = true -> Database.day r = isoformat d ->
               PyDate.leb start d && PyDate.leb d end_ = f r) ->
  filter (within start end_) series = filter f series.
Proof.
  intros Hiso Hf. apply filter_ext_in. intros r Hr.
  unfold iso_rows in Hiso. rewrite Forall_forall in Hiso.
  destruct (Hiso r Hr) as (d & Hd & Ed).
  unfold within. rewrite Ed, strptime_isoformat by exact Hd. now apply Hf.
Qed.

Lemma select_rows_within (start end_ : date) (series : list Database.stat_row) :
  iso_rows series ->
  MonitorWindow.select_rows start end_ series [] = Returned (filter (within start end_) series).
Proof.
  intros Hiso.
  assert (H : forall filtered,
             MonitorWindow.select_rows start end_ series filtered
             = Returned (filtered ++ filter (within start end_) series)).
  { induction Hiso as [|row rest (d & Hd & Eday) _ IH];
      intros filtered; cbn [MonitorWindow.select_rows filter].
    - now rewrite app_nil_r.
    - unfold within at 1. rewrite Eday, strptime_isoformat by exact Hd.
      cbn [bind]. rewrite IH.
      destruct (PyDate.leb start d && PyDate.leb d end_);
        [now rewrite <- app_assoc | reflexivity]. }
  apply H.
Qed.

Lemma filtered_stats_month_loop (series : list Database.stat_row) (selected : date) :
  valid selected = true ->
  MonitorWindow.filtered_stats "Měsíc" selected series
  = MonitorWindow.select_rows
      (mkdate (year selected) (month selected) 1)
      (mkdate (year selected) (month selected)
              (days_in_month (year selected) (month selected)))
      series [].
Proof.
  intros Hv. unfold MonitorWindow.filtered_stats.
  rewrite text_mesic_is_not_vse, text_mesic_is_not_tyden, String.eqb_refl.
  pose proof (valid_first_of_month selected Hv) as Hfirst.
  unfold valid in Hfirst. cbn [year month day] in Hfirst.
  unfold PyDate.new at 1. rewrite Hfirst. cbn [bind].
  assert (Hbounds :
    (if month selected =? 12
     then end_ <- PyDate.new (year selected) 12 31 ;;
          Returned (mkdate (year selected) (month selected) 1, end_)
     else next_month <- PyDate.new (year selected) (month selected + 1) 1 ;;
          end_ <- sub_days next_month 1 ;;
          Returned (mkdate (year selected) (month selected) 1, end_))
    = Returned (mkdate (year selected) (month selected) 1,
                mkdate (year selected) (month selected)
                       (days_in_month (year selected) (month selected)))).
  { destruct (Z.eqb_spec (month selected) 12) as [E|N].
    - assert (V : valid_fields (year selected) 12 31 = true).
      { pose proof Hv as Hv'. unfold valid in Hv'. apply valid_fields_iff in Hv'.
        apply valid_fields_iff. unfold days_in_month. cbn. lia. }
      unfold PyDate.new. rewrite V. cbn [bind]. rewrite E.
      unfold days_in_month. reflexivity.
    - pose proof (last_day_of_month selected Hv N) as Hl.
      destruct (PyDate.new (year selected) (month selected + 1) 1) as [nm|e];
        cbn [bind] in *; [|discriminate].
      rewrite Hl. reflexivity. }
  rewrite Hbounds. reflexivity.
Qed.

Lemma filtered_stats_year_loop (period : string) (series : list Database.stat_row)
    (selected : date) :
  period <> "Vše" -> period <> "Týden" -> period <> "Měsíc" ->
  valid selected = true ->
  MonitorWindow.filtered_stats period selected series
  = MonitorWindow.select_rows (mkdate (year selected) 1 1) (mkdate (year selected) 12 31)
      series [].
Proof.
  intros H1 H2 H3 Hv. unfold MonitorWindow.filtered_stats.
  apply String.eqb_neq in H1, H2, H3. rewrite H1, H2, H3.
  assert (V1 : valid_fields (year selected) 1 1 = true).
  { unfold valid in Hv. apply valid_fields_iff in Hv.
    apply valid_fields_iff. unfold days_in_month. cbn. lia. }
  assert (V2 : valid_fields (year selected) 12 31 = true).
  { unfold valid in Hv. apply valid_fields_iff in Hv.
    apply valid_fields_iff. unfold days_in_month. cbn. lia. }
  unfold PyDate.new. rewrite V1, V2. reflexivity.
Qed.

Lemma sample_rows_iso : iso_rows (Database.daily_stats sample_tables).
Proof. exact (proj1 sample_window_consistent). Qed.

(** X16. For a series whose days are ISO dates and every date, slicing
    with the month period returns exactly the rows whose day has the year
    and the month of the date, in the order of the series; December and
    February of a leap year included. *)
Theorem month_slice_is_the_calendar_month :
  forall (series : list Database.stat_row) (selected : date),
    valid selected = true ->
    iso_rows series ->
    MonitorWindow.filtered_stats "Měsíc" selected series
    = Returned (filter (in_month (year selected) (month selected)) series).
Proof.
  intros series selected Hv Hiso.
  rewrite filtered_stats_month_loop by exact Hv.
  rewrite select_rows_within by exact Hiso. f_equal.
  apply filter_within_iso; [exact Hiso|].
  intros r d Hd Ed. unfold in_month. rewrite Ed, strptime_isoformat by exact Hd.
  now apply within_month.
Qed.

Lemma month_slice_is_the_calendar_month_witness :
  let series := Database.daily_stats sample_tables in
  let selected := mkdate 2024 3 31 in
  valid selected = true /\ iso_rows series /\
  MonitorWindow.filtered_stats "Měsíc" selected series
  = Returned (filter (in_month (year selected) (month selected)) series).
Proof.
  cbv zeta. split; [reflexivity|]. split; [exact sample_rows_iso|].
  apply (month_slice_is_the_calendar_month (Database.daily_stats sample_tables)
           (mkdate 2024 3 31)).
  - reflexivity.
  - exact sample_rows_iso.
Defined.

(** X17. For a series whose days are ISO dates and every date, slicing
    with any period text other than the three the code names (the year, in
    the filter box) returns exactly the rows whose day has the year of the
    date, in the order of the series. *)
Theorem year_slice_is_the_calendar_year :
  forall (period : string) (series : list Database.stat_row) (selected : date),
    period <> "Vše" -> period <> "Týden" -> period <> "Měsíc" ->
    valid selected = true ->
    iso_rows series ->
    MonitorWindow.filtered_stats period selected series
    = Returned (filter (in_year (year selected)) series).
Proof.
  intros period series selected H1 H2 H3 Hv Hiso.
  rewrite filtered_stats_year_loop by assumption.
  rewrite select_rows_within by exact Hiso. f_equal.
  apply filter_within_iso; [exact Hiso|].
  intros r d Hd Ed. unfold in_year. rewrite Ed, strptime_isoformat by exact Hd.
  now apply within_year.
Qed.

Lemma year_slice_is_the_calendar_year_witness :
  let series := Database.daily_stats sample_tables in
  let selected := mkdate 2024 12 31 in
  "Rok" <> "Vše" /\ "Rok" <> "Týden" /\ "Rok" <> "Měsíc" /\
  valid selected = true /\ iso_rows series /\
  MonitorWindow.filtered_stats "Rok" selected series
  = Returned (filter (in_year (year selected)) series).
Proof.
  cbv zeta. split; [discriminate|]. split; [discriminate|]. split; [discriminate|].
  split; [reflexivity|]. split; [exact sample_rows_iso|].
  apply (year_slice_is_the_calendar_year "Rok" (Database.daily_stats sample_tables)
           (mkdate 2024 12 31)).
  - discriminate.
  - discriminate.
  - discriminate.
  - reflexivity.
  - exact sample_rows_iso.
Defined.

(** X18. Whatever the period, the date and the rows, when [filtered_stats]
    returns, it returns rows of its input, in the order of the input: it
    drops rows and does nothing else. *)

Theorem slice_only_drops_rows :
  forall (period : string) (selected : date) (stats rows : list Database.stat_row),
    MonitorWindow.filtered_stats period selected stats = Returned rows ->
    exists keep : Database.stat_row -> bool, rows = filter keep stats.
Proof.
  intros period selected stats rows. unfold MonitorWindow.filtered_stats.
  destruct (String.eqb period "Vše").
  - intros [= <-]. exists (fun _ => true). symmetry. apply filter_all.
    rewrite Forall_forall. reflexivity.
  - match goal with
    | |- bind ?b _ = _ -> _ => destruct b as [[start end_]|e]; cbn [bind fst snd]
    end; [|discriminate].
    intros Hrun. apply select_rows_returns in Hrun. destruct Hrun as [-> _].
    exists (within start end_). reflexivity.
Qed.

Lemma slice_only_drops_rows_witness :
  let stats := Database.daily_stats sample_tables in
  MonitorWindow.filtered_stats "Týden" (mkdate 2024 3 14)
    (stats ++ [Database.mkstat 3 1 "2024-03-18" 13 1]) = Returned stats /\
  exists keep : Database.stat_row -> bool,
    stats = filter keep (stats ++ [Database.mkstat 3 1 "2024-03-18" 13 1]).
Proof.
  cbv zeta. split; [vm_compute; reflexivity|].
  apply (slice_only_drops_rows "Týden" (mkdate 2024 3 14)
           (Database.daily_stats sample_tables ++ [Database.mkstat 3 1 "2024-03-18" 13 1])
           (Database.daily_stats sample_tables)).
  vm_compute. reflexivity.
Defined.

(** X19. One row whose day is an ASCII text that is not a date makes every
    slice but the unfiltered one raise, whatever the date: the loop of
    [filtered_stats] parses the day of every row, also of rows outside the
    period. *)
Theorem unreadable_day_fails_every_slice_but_all :
  forall (period : string) (selected : date) (stats : list Database.stat_row)
         (r : Database.stat_row) (e : exn),
    In r stats ->
    ascii_text (Database.day r) = true ->
    strptime (Database.day r) = Raised e ->
    period <> "Vše" ->
    exists e', MonitorWindow.filtered_stats period selected stats = Raised e'.
Proof.
  intros period selected stats r e Hin _ He Hp.
  destruct (MonitorWindow.filtered_stats period selected stats) as [rows|e'] eqn:Hrun;
    [|now exists e'].
  exfalso. unfold MonitorWindow.filtered_stats in Hrun.
  apply String.eqb_neq in Hp. rewrite Hp in Hrun.
  match type of Hrun with
  | bind ?b _ = _ => destruct b as [[start end_]|e']; cbn [bind fst snd] in Hrun
  end; [|discriminate].
  now apply (select_rows_raises start end_ stats r e Hin He [] rows).
Qed.

Lemma unreadable_day_fails_every_slice_but_all_witness :
  let r := Database.mkstat 3 1 "2024-3-1x" 1 0 in
  let stats := Database.daily_stats sample_tables ++ [r] in
  In r stats /\ ascii_text (Database.day r) = true /\
  strptime (Database.day r) = Raised ValueError /\ "Rok" <> "Vše" /\
  exists e', MonitorWindow.filtered_stats "Rok" (mkdate 2023 1 1) stats = Raised e'.
Proof.
  cbv zeta. split; [right; right; now left|]. split; [reflexivity|].
  split; [vm_compute; reflexivity|]. split; [discriminate|].
  apply (unreadable_day_fails_every_slice_but_all "Rok" (mkdate 2023 1 1)
           (Database.daily_stats sample_tables ++ [Database.mkstat 3 1 "2024-3-1x" 1 0])
           (Database.mkstat 3 1 "2024-3-1x" 1 0) ValueError).
  - right; right; now left.
  - reflexivity.
  - vm_compute. reflexivity.
  - discriminate.
Defined.

(** ** Opening the window *)

Lemma init_dict (rows : list Database.location_row) :
  forall dict : list (Z * MonitorWindow.Location),
    let dict' :=
      fold_left (fun dict row =>
                   MonitorWindow.dict_set dict (Database.id row)
                     (MonitorWindow.mkLocation (Database.id row) (Database.name row)
                        (Database.path row) (Database.kind row)))
                rows dict in
    (NoDup (map fst dict) -> NoDup (map fst dict')) /\
    (Forall (fun kv => fst kv = MonitorWindow.location_id (snd kv)) dict ->
     Forall (fun kv => fst kv = MonitorWindow.location_id (snd kv)) dict') /\
    (forall k, In k (map fst dict') <-> In k (map fst dict) \/ In k (map Database.id rows)).
Proof.
  induction rows as [|row rest IH]; intros dict; cbn [fold_left map].
  - cbv zeta. repeat split; auto. intros [H|[]]; exact H.
  - cbv zeta in *. destruct (IH (MonitorWindow.dict_set dict (Database.id row)
                        (MonitorWindow.mkLocation (Database.id row) (Database.name row)
                           (Database.path row) (Database.kind row)))) as (Hnd & Hkey & Hk).
    split; [|split].
    + intros H. apply Hnd. now apply dict_set_nodup.
    + intros H. apply Hkey. apply dict_set_keeps; [exact H | reflexivity].
    + intros k. rewrite Hk, dict_set_keys. cbn. intuition.
Qed.

Lemma sample_tables_referential : referential sample_tables.
Proof. constructor; [now left|]. constructor; [now left | constructor]. Qed.

(** X8. Opened on a database file whose daily statistics all belong to
    registered locations and carry ISO days, the window agrees with its
    store, its dictionary is keyed by id and holds exactly the ids of the
    registered locations, and nothing is pending. *)
Theorem window_starts_in_step_with_store :
  forall file : Database.tables,
    referential file -> iso_days file ->
    consistent (MonitorWindow.init file) /\
    keyed (MonitorWindow.init file) /\
    (forall k, In k (map fst (MonitorWindow.locations (MonitorWindow.init file)))
               <-> In k (map Database.id (Database.locations file))) /\
    Database.dirty (MonitorWindow.db (MonitorWindow.init file)) = false.
Proof.
  intros file Href Hiso. unfold MonitorWindow.init. cbv zeta.
  destruct (init_dict (Database.list_locations (Database.init file)) [])
    as (Hnd & Hkey & Hk). cbv zeta in *.
  assert (Hp : Permutation (Database.list_locations (Database.init file))
                           (Database.locations file)).
  { unfold Database.list_locations. rewrite order_by_name_eq. apply order_by_perm. }
  assert (Hids : forall k,
             In k (map Database.id (Database.list_locations (Database.init file)))
             <-> In k (map Database.id (Database.locations file))).
  { intros k. split; apply Permutation_in, Permutation_map;
      [exact Hp | now apply Permutation_sym]. }
  assert (Hkeys : forall k,
             In k (map fst (fold_left
                              (fun dict row =>
                                 MonitorWindow.dict_set dict (Database.id row)
                                   (MonitorWindow.mkLocation (Database.id row)
                                      (Database.name row) (Database.path row)
                                      (Database.kind row)))
                              (Database.list_locations (Database.init file)) []))
             <-> In k (map Database.id (Database.locations file))).
  { intros k. rewrite Hk, Hids. cbn. tauto. }
  split; [|split; [|split]].
  - split; [exact Hiso|]. split; [|exact Href].
    cbn [MonitorWindow.locations MonitorWindow.db].
    rewrite Forall_forall. intros kv Hin.
    assert (Hkey' := Hkey (Forall_nil _)). rewrite Forall_forall in Hkey'.
    split; [now apply Hkey'|]. cbn. apply Hkeys. now apply in_map.
  - split; cbn [MonitorWindow.locations]; [apply Hnd; constructor | apply Hkey; constructor].
  - exact Hkeys.
  - reflexivity.
Qed.

Lemma window_starts_in_step_with_store_witness :
  referential sample_tables /\ iso_days sample_tables /\
  consistent (MonitorWindow.init sample_tables) /\
  keyed (MonitorWindow.init sample_tables) /\
  (forall k, In k (map fst (MonitorWindow.locations (MonitorWindow.init sample_tables)))
             <-> In k (map Database.id (Database.locations sample_tables))) /\
  Database.dirty (MonitorWindow.db (MonitorWindow.init sample_tables)) = false.
Proof.
  split; [exact sample_tables_referential|]. split; [exact sample_rows_iso|].
  apply (window_starts_in_step_with_store sample_tables).
  - exact sample_tables_referential.
  - exact sample_rows_iso.
Defined.

(** ** Links and sub-directories that cannot be listed *)

(** X20. A link to a directory among the entries of a folder adds nothing
    to the size of the folder, whatever lies behind it: the walk does not
    follow it and its own size is not asked for. A sub-directory that cannot
    be listed adds nothing either. *)
Theorem folder_walk_does_not_enter_links :
  forall (top : string) (link : bool) (before after : list (string * node)) (name : string)
         (behind : option (list (string * node))),
    LocationSize.add_items
      (LocationSize.walk top
         (Directory link (Some (before ++ (name, Directory true behind) :: after)))) 0
    = LocationSize.add_items
        (LocationSize.walk top (Directory link (Some (before ++ after)))) 0 /\
    LocationSize.add_items
      (LocationSize.walk top
         (Directory link (Some (before ++ (name, Directory false None) :: after)))) 0
    = LocationSize.add_items
        (LocationSize.walk top (Directory link (Some (before ++ after)))) 0.
Proof.
  intros top link before after name behind.
  rewrite !add_items_walk. cbn [readable_sizes].
  rewrite !flat_map_app. cbn [flat_map snd app readable_sizes].
  assert (Hhere : forall l b,
             sizes_here (before ++ (name, Directory l b) :: after)
             = sizes_here (before ++ after)).
  { intros l b. induction before as [|[nm [[x|]|l' e]] rest IH]; simpl; congruence. }
  rewrite !Hhere. split; reflexivity.
Qed.

(** ** The series of the chart *)




(** ** The configuration *)

Section ConfigFacts.
Context {V : Type}.

Lemma config_get_set (data : list (string * V)) (key : string) (value : V) (k : string) :
  ConfigManager.get (ConfigManager.set data key value) k
  = if String.eqb key k then Some value else ConfigManager.get data k.
Proof.
  induction data as [|[k0 v0] rest IH]; simpl.
  - reflexivity.
  - destruct (String.eqb_spec k0 key) as [->|N]; simpl.
    + now destruct (String.eqb key k).
    + rewrite IH. destruct (String.eqb_spec key k) as [->|N'].
      * apply String.eqb_neq in N. now rewrite N.
      * reflexivity.
Qed.

Lemma config_get_none (data : list (string * V)) (k : string) :
  ~ In k (map fst data) -> ConfigManager.get data k = None.
Proof.
  induction data as [|[k0 v0] rest IH]; simpl; intros Hn; [reflexivity|].
  destruct (String.eqb_spec k0 k) as [E|N]; [exfalso; apply Hn; now left|].
  apply IH. intros Hin. apply Hn. now right.
Qed.

End ConfigFacts.

(** X22. After [load] has read a configuration file, every key the file
    holds has the value of the file and every other key keeps its default;
    a value is replaced as a whole, so a file that gives [colors] with one
    colour only leaves no default for the other. Without a file the
    defaults stay. *)
Theorem config_load_overrides_per_key :
  forall (V : Type) (data other : list (string * V)) (k : string),
    NoDup (map fst other) ->
    ConfigManager.get (ConfigManager.load data (Some other)) k
    = match ConfigManager.get other k with
      | Some v => Some v
      | None => ConfigManager.get data k
      end /\
    ConfigManager.load data None = data.
Proof.
  intros V data other k Hnd. split; [|reflexivity].
  cbn [ConfigManager.load]. unfold ConfigManager.update.
  revert data. induction other as [|[k0 v0] rest IH]; intros data; cbn [fold_left].
  - reflexivity.
  - inversion Hnd as [|? ? Hnotin Hnd']; subst. rewrite IH by exact Hnd'.
    cbn [fst snd ConfigManager.get]. rewrite config_get_set.
    destruct (String.eqb_spec k0 k) as [->|N]; [|reflexivity].
    now rewrite config_get_none.
Qed.

Lemma config_load_overrides_per_key_witness :
  let data := [("poll_minutes", 10); ("session_update_minutes", 60);
               ("db_flush_minutes", 60)] in
  let other := [("db_flush_minutes", 5); ("language", 1)] in
  NoDup (map fst other) /\
  ConfigManager.get (ConfigManager.load data (Some other)) "db_flush_minutes"
  = match ConfigManager.get other "db_flush_minutes" with
    | Some v => Some v
    | None => ConfigManager.get data "db_flush_minutes"
    end /\
  ConfigManager.load data None = data.
Proof.
  cbv zeta.
  assert (Hnd : NoDup (map fst [("db_flush_minutes", 5); ("language", 1)])).
  { constructor; [intros [H|[]]; discriminate H|].
    constructor; [intros [] | constructor]. }
  split; [exact Hnd|].
  apply (config_load_overrides_per_key Z
           [("poll_minutes", 10); ("session_update_minutes", 60); ("db_flush_minutes", 60)]
           [("db_flush_minutes", 5); ("language", 1)] "db_flush_minutes").
  exact Hnd.
Defined.
